(** * PLANEXA: the floor-plan client and the layout engine it talks to

    The development has two parts.

    - [Js] and [Client] embed [frontend/script.js]: the class
      [FloorPlanGenerator] with its three fields, the request it assembles
      from the form, the way it consumes a response, floor navigation and
      the SVG it draws.
    - [Engine] models the layout engine behind [POST /generate].  The
      engine's code (backend/app.py, backend/ml_engine) is not part of the
      sources at hand, so these definitions follow the design document.

    Numbers.  A JavaScript number is modelled as [num]: either [NaN] or a
    rational.  Rounding of IEEE doubles and the infinities are left out;
    every arithmetic expression of the source is kept as written. *)

From Stdlib Require Import ZArith QArith Qabs Qminmax Lia Lqa String Ascii List Bool.
From stdpp Require Import base gmap strings list pretty.

(** ** A fragment of JavaScript values *)

Module Js.

Local Open Scope Z_scope.

(** A number: [NaN] or a finite value. *)
Inductive num : Type :=
| NaN
| Fin (q : Q).

Definition nmul (a b : num) : num :=
  match a, b with
  | Fin x, Fin y => Fin (x * y)
  | _, _ => NaN
  end.

Definition nadd (a b : num) : num :=
  match a, b with
  | Fin x, Fin y => Fin (x + y)
  | _, _ => NaN
  end.

(** [a / b] for a non-zero literal divisor [b]. *)
Definition ndiv (a b : num) : num :=
  match a, b with
  | Fin x, Fin y => if Qeq_bool y 0 then NaN else Fin (x / y)
  | _, _ => NaN
  end.

Definition nsub (a b : num) : num :=
  match a, b with
  | Fin x, Fin y => Fin (x - y)
  | _, _ => NaN
  end.

Definition ofZ (z : Z) : num := Fin (inject_Z z).

(** The values a parsed JSON document, or a missing property, can hold.
    Arrays and objects are only ever tested for truthiness here, so they
    carry no content. *)
Inductive jsval : Type :=
| JUndefined
| JNull
| JBool (b : bool)
| JNum (n : num)
| JStr (s : string)
| JObject.

(** ToBoolean. *)
Class Truthy (A : Type) := truthy : A -> bool.

#[export] Instance truthy_num : Truthy num := fun n =>
  match n with
  | NaN => false
  | Fin q => negb (Qeq_bool q 0)
  end.

#[export] Instance truthy_string : Truthy string := fun s =>
  match s with
  | EmptyString => false
  | String _ _ => true
  end.

#[export] Instance truthy_jsval : Truthy jsval := fun v =>
  match v with
  | JUndefined | JNull => false
  | JBool b => b
  | JNum n => truthy n
  | JStr s => truthy s
  | JObject => true
  end.

(** A property that may be missing: missing reads as [undefined]. *)
#[export] Instance truthy_option {A} `{Truthy A} : Truthy (option A) := fun o =>
  match o with
  | None => false
  | Some a => truthy a
  end.

(** [a || b] *)
Definition jor {A} `{Truthy A} (a b : A) : A := if truthy a then a else b.

(** [o || b] where [o] is a possibly missing property of type [A]. *)
Definition jor_default {A} `{Truthy A} (o : option A) (b : A) : A :=
  match o with
  | Some a => jor a b
  | None => b
  end.

(** *** parseInt(string), radix omitted

    A string is its UTF-8 bytes.  The integer is kept exact: the source
    rounds it to a double, which changes it only beyond 2^53 (and gives
    Infinity beyond the range of doubles); a statement that names the
    value sent bounds it by 2^53. *)

(** The white space and line terminators of one byte: TAB, LF, VT, FF,
    CR, SP. *)
Definition isStrWhiteSpaceChar (c : ascii) : bool :=
  match N_of_ascii c with
  | 9%N | 10%N | 11%N | 12%N | 13%N | 32%N => true
  | _ => false
  end.

(** U+00A0 (NBSP). *)
Definition isStrWhiteSpaceChar2 (c1 c2 : ascii) : bool :=
  match N_of_ascii c1, N_of_ascii c2 with
  | 194%N, 160%N => true
  | _, _ => false
  end.

(** U+1680, U+2000 to U+200A, U+2028, U+2029, U+202F, U+205F, U+3000 and
    U+FEFF. *)
Definition isStrWhiteSpaceChar3 (c1 c2 c3 : ascii) : bool :=
  match N_of_ascii c1, N_of_ascii c2, N_of_ascii c3 with
  | 225%N, 154%N, 128%N => true
  | 226%N, 128%N, n => ((128 <=? n) && (n <=? 138))%N || (n =? 168)%N || (n =? 169)%N
                       || (n =? 175)%N
  | 226%N, 129%N, 159%N => true
  | 227%N, 128%N, 128%N => true
  | 239%N, 187%N, 191%N => true
  | _, _, _ => false
  end.

Fixpoint trimStart (s : string) : string :=
  match s with
  | String c1 r1 =>
      if isStrWhiteSpaceChar c1 then trimStart r1
      else
        match r1 with
        | String c2 r2 =>
            if isStrWhiteSpaceChar2 c1 c2 then trimStart r2
            else
              match r2 with
              | String c3 r3 =>
                  if isStrWhiteSpaceChar3 c1 c2 c3 then trimStart r3 else s
              | EmptyString => s
              end
        | EmptyString => s
        end
  | EmptyString => s
  end.

Definition digitValue (c : ascii) : option Z :=
  let n := Z.of_N (N_of_ascii c) in
  if (48 <=? n) && (n <=? 57) then Some (n - 48)
  else if (97 <=? n) && (n <=? 122) then Some (n - 87)
  else if (65 <=? n) && (n <=? 90) then Some (n - 55)
  else None.

(** Value of the longest prefix made of radix-[radix] digits; [acc] is
    [None] as long as no digit has been read. *)
Fixpoint digitsPrefix (radix : Z) (s : string) (acc : option Z) : option Z :=
  match s with
  | String c r =>
      match digitValue c with
      | Some d =>
          if d <? radix
          then digitsPrefix radix r (Some (radix * default 0 acc + d))
          else acc
      | None => acc
      end
  | EmptyString => acc
  end.

Definition parseInt (input : string) : num :=
  let s := trimStart input in
  let '(sign, s) :=
    match s with
    | String "-" r => (-1, r)
    | String "+" r => (1, r)
    | _ => (1, s)
    end in
  let '(radix, s) :=
    match s with
    | String "0" (String "x" r) => (16, r)
    | String "0" (String "X" r) => (16, r)
    | _ => (10, s)
    end in
  match digitsPrefix radix s None with
  | None => NaN
  | Some n => ofZ (sign * n)
  end.

End Js.

Import Js.

(** ** The client: [class FloorPlanGenerator] *)

Module Client.

Local Open Scope string_scope.
Local Open Scope Z_scope.

(** *** What the page's form holds *)

(** One [.room-input] row: the select's value and the count field's text. *)
Record RoomInput : Type := {
  room_type_value : string;
  room_count_value : string
}.

Record Form : Type := {
  width_value : string;
  length_value : string;
  floors_value : string;
  room_inputs : list RoomInput;
  style_value : string;
  include_furniture_checked : bool;
  include_windows_checked : bool
}.

(** *** The request body *)

Record RoomReq : Type := {
  req_type : string;
  req_count : num
}.

Module Specs.
Record t : Type := {
  width : num;
  length : num;
  floors : num;
  rooms : list RoomReq;
  style : string;
  include_furniture : bool;
  include_windows : bool
}.
End Specs.

Definition default_rooms : list RoomReq :=
  [ {| req_type := "bedroom"; req_count := ofZ 2 |};
    {| req_type := "living"; req_count := ofZ 1 |} ].

Definition getInputSpecifications (f : Form) : Specs.t :=
  let roomReqs :=
    map (fun input =>
           {| req_type := room_type_value input;
              req_count := jor (parseInt (room_count_value input)) (ofZ 1) |})
        (room_inputs f) in
  {| Specs.width := jor (parseInt (width_value f)) (ofZ 12);
     Specs.length := jor (parseInt (length_value f)) (ofZ 10);
     Specs.floors := jor (parseInt (floors_value f)) (ofZ 1);
     Specs.rooms := if (0 <? length roomReqs)%nat then roomReqs else default_rooms;
     Specs.style := jor (style_value f) "modern";
     Specs.include_furniture := include_furniture_checked f;
     Specs.include_windows := include_windows_checked f |}.

(** *** The response as the client reads it

    Every property the code reads may be missing from the object it is
    read from; a missing property is [None]. *)

Module Room.
Record t : Type := {
  type : option string;
  x : option num;
  y : option num;
  width : option num;
  length : option num;
  area : option num
}.
End Room.

(** Walls and windows are both segments [{x1, y1, x2, y2}]. *)
Module Wall.
Record t : Type := {
  x1 : option num;
  y1 : option num;
  x2 : option num;
  y2 : option num
}.
End Wall.

Module Door.
Record t : Type := {
  x : option num;
  y : option num
}.
End Door.

Module Floor.
Record t : Type := {
  floor_number : option num;
  width : option num;
  length : option num;
  rooms : option (list Room.t);
  walls : option (list Wall.t);
  windows : option (list Wall.t);
  doors : option (list Door.t);
  metrics : option (gmap string jsval)
}.
End Floor.

Module Response.
Record t : Type := {
  success : jsval;
  floors : option (list Floor.t);
  metrics : option (gmap string jsval);
  error : option string
}.
End Response.

(** ToNumber of a numeric property: [undefined] becomes [NaN]. *)
Definition toNumber (o : option num) : num := default NaN o.

(** [obj.key] on a parsed JSON object. *)
Definition prop (obj : gmap string jsval) (key : string) : jsval :=
  default JUndefined (obj !! key).

(** [arr[i]] for an integer [i]: [undefined] outside [0 .. length - 1]. *)
Definition index {A} (arr : list A) (i : Z) : option A :=
  if i <? 0 then None else arr !! Z.to_nat i.

(** *** The SVG tree *)

(** Template strings keep their interpolated numbers apart from the
    literal text; [Fixed1 n] is [n.toFixed(1)]. *)
Inductive Piece : Type :=
| Lit (s : string)
| Val (n : num)
| Fixed1 (n : num).

(** What [getRoomColor] returns: a colour of its table or the fallback,
    or, for a type named like a property every object inherits, that
    property. *)
Inductive Paint : Type :=
| Colour (hex : string)
| Inherited (name : string).

Inductive AttrVal : Type :=
| ANum (n : num)
| AStr (s : string)
| ATemplate (ps : list Piece)
| APaint (p : Paint).

#[warnings="-register-all"] Inductive Node : Type :=
| El (tag : string) (attrs : list (string * AttrVal)) (kids : list Node)
| Text (ps : list Piece).

Definition attrs_of (n : Node) : list (string * AttrVal) :=
  match n with
  | El _ attrs _ => attrs
  | Text _ => []
  end.

Definition kids_of (n : Node) : list Node :=
  match n with
  | El _ _ kids => kids
  | Text _ => []
  end.

Fixpoint assoc (name : string) (attrs : list (string * AttrVal)) : option AttrVal :=
  match attrs with
  | [] => None
  | (k, v) :: rest => if String.eqb k name then Some v else assoc name rest
  end.

(** [node.getAttribute(name)] *)
Definition getAttribute (name : string) (n : Node) : option AttrVal :=
  assoc name (attrs_of n).

(** *** Evaluation that may throw *)

(** What stands in [svg-container]. *)
Inductive Display : Type :=
| Welcome
| ErrorMessage (message : string)
| Cleared
| Picture (svg : Node).

(** The instance's fields, the chart's dataset when Chart.js is there, and
    the two page elements the class writes to ([None]: the element is not
    in the page).  Text that is only ever written (the button's caption,
    the floor label, the console) and the 3D scene are not tracked. *)
Record State : Type := {
  currentFloor : Z;
  totalFloors : Z;
  floorPlanData : option Response.t;
  chart : option (list jsval);
  svgContainer : option Display;
  metricsDiv : option (list jsval)
}.

Definition set_display (d : Display) (st : State) : State :=
  {| currentFloor := currentFloor st;
     totalFloors := totalFloors st;
     floorPlanData := floorPlanData st;
     chart := chart st;
     svgContainer := Some d;
     metricsDiv := metricsDiv st |}.

(** The [message] of a thrown [Error]. *)
Inductive Message : Type :=
| Msg (s : string)
| HttpStatus (status : Z).

Inductive Result (A : Type) : Type :=
| Ok (a : A)
| Threw (e : Message).
Arguments Ok {A} a.
Arguments Threw {A} e.

#[export] Instance Result_bind : MBind Result := fun A B k r =>
  match r with
  | Ok a => k a
  | Threw e => Threw e
  end.

(** [arr.forEach(f)] collecting what [f] appends; the first throw ends it. *)
Fixpoint forEach {A B} (f : A -> Result B) (arr : list A) : Result (list B) :=
  match arr with
  | [] => Ok []
  | a :: rest =>
      b ← f a;
      bs ← forEach f rest;
      Ok (b :: bs)
  end.

Definition typeError : Message := Msg "TypeError".

(** *** Drawing *)

Definition colors : gmap string string :=
  list_to_map
    [ ("bedroom", "#3498db");
      ("living", "#2ecc71");
      ("kitchen", "#e74c3c");
      ("bathroom", "#9b59b6");
      ("office", "#f39c12");
      ("hallway", "#bdc3c7");
      ("stairs", "#34495e") ].

(** The properties every object inherits from [Object.prototype]; each
    holds a function or an object. *)
Definition inherited : gset string :=
  {[ "constructor"; "__defineGetter__"; "__defineSetter__"; "hasOwnProperty";
     "__lookupGetter__"; "__lookupSetter__"; "isPrototypeOf"; "propertyIsEnumerable";
     "toString"; "valueOf"; "__proto__"; "toLocaleString" ]}.

(** [colors[roomType] || '#95a5a6'] *)
Definition getRoomColor (roomType : option string) : Paint :=
  match roomType with
  | Some name =>
      match colors !! name with
      | Some hex => Colour (jor hex "#95a5a6")
      | None =>
          if bool_decide (name ∈ inherited) then Inherited name else Colour "#95a5a6"
      end
  | None => Colour "#95a5a6"
  end.

Definition toUpperCase (c : ascii) : ascii :=
  let n := N_of_ascii c in
  if ((97 <=? n) && (n <=? 122))%N then ascii_of_N (n - 32) else c.

(** [s.charAt(0).toUpperCase() + s.slice(1)] *)
Definition capitalize (s : string) : string :=
  match s with
  | EmptyString => EmptyString
  | String c rest => String (toUpperCase c) rest
  end.

Definition addGrid (width height : num) : list Node :=
  let gridSize := ofZ 50 in
  let hLine :=
    El "line"
       [ ("x1", AStr "0"); ("y1", AStr "0"); ("x2", ANum gridSize); ("y2", AStr "0");
         ("stroke", AStr "#e0e0e0"); ("stroke-width", AStr "1") ] [] in
  let vLine :=
    El "line"
       [ ("x1", AStr "0"); ("y1", AStr "0"); ("x2", AStr "0"); ("y2", ANum gridSize);
         ("stroke", AStr "#e0e0e0"); ("stroke-width", AStr "1") ] [] in
  let pattern :=
    El "pattern"
       [ ("id", AStr "grid"); ("width", ANum gridSize); ("height", ANum gridSize);
         ("patternUnits", AStr "userSpaceOnUse") ]
       [ hLine; vLine ] in
  let defs := El "defs" [] [ pattern ] in
  let gridRect :=
    El "rect"
       [ ("width", AStr "100%"); ("height", AStr "100%"); ("fill", AStr "url(#grid)") ] [] in
  [ defs; gridRect ].

Definition renderRoom (room : Room.t) : Result Node :=
  let scale := ofZ 50 in
  let x := nmul (jor_default (Room.x room) (ofZ 1)) scale in
  let y := nmul (jor_default (Room.y room) (ofZ 1)) scale in
  let width := nmul (jor_default (Room.width room) (ofZ 3)) scale in
  let height := nmul (jor_default (Room.length room) (ofZ 3)) scale in
  let rect :=
    El "rect"
       [ ("x", ANum x); ("y", ANum y); ("width", ANum width); ("height", ANum height);
         ("fill", APaint (getRoomColor (Room.type room)));
         ("stroke", AStr "#2c3e50"); ("stroke-width", AStr "2"); ("opacity", AStr "0.8") ]
       [] in
  let centerX := nadd x (ndiv width (ofZ 2)) in
  let centerY := nadd y (ndiv height (ofZ 2)) in
  match Room.type room with
  | None => Threw typeError
  | Some type =>
      let roomType :=
        El "tspan" [ ("x", ANum centerX); ("dy", AStr "-0.6em") ]
           [ Text [ Lit (capitalize type) ] ] in
      let area :=
        match Room.area room with
        | Some a => if truthy a then Val a
                    else Fixed1 (nmul (jor_default (Room.width room) (ofZ 3))
                                      (jor_default (Room.length room) (ofZ 3)))
        | None => Fixed1 (nmul (jor_default (Room.width room) (ofZ 3))
                               (jor_default (Room.length room) (ofZ 3)))
        end in
      let roomArea :=
        El "tspan" [ ("x", ANum centerX); ("dy", AStr "1.2em") ]
           [ Text [ area; Lit "m2" ] ] in
      let text :=
        El "text"
           [ ("x", ANum centerX); ("y", ANum centerY);
             ("text-anchor", AStr "middle"); ("dominant-baseline", AStr "middle");
             ("fill", AStr "white"); ("font-weight", AStr "bold");
             ("font-size", AStr "12"); ("style", AStr "user-select: none;") ]
           [ roomType; roomArea ] in
      Ok (El "g" [] [ rect; text ])
  end.

Definition renderWall (wall : Wall.t) : Node :=
  let scale := ofZ 50 in
  El "line"
     [ ("x1", ANum (nmul (toNumber (Wall.x1 wall)) scale));
       ("y1", ANum (nmul (toNumber (Wall.y1 wall)) scale));
       ("x2", ANum (nmul (toNumber (Wall.x2 wall)) scale));
       ("y2", ANum (nmul (toNumber (Wall.y2 wall)) scale));
       ("stroke", AStr "#2c3e50"); ("stroke-width", AStr "4");
       ("stroke-linecap", AStr "round") ] [].

Definition renderWindow (window : Wall.t) : Node :=
  let scale := ofZ 50 in
  El "line"
     [ ("x1", ANum (nmul (toNumber (Wall.x1 window)) scale));
       ("y1", ANum (nmul (toNumber (Wall.y1 window)) scale));
       ("x2", ANum (nmul (toNumber (Wall.x2 window)) scale));
       ("y2", ANum (nmul (toNumber (Wall.y2 window)) scale));
       ("stroke", AStr "#3498db"); ("stroke-width", AStr "3");
       ("stroke-dasharray", AStr "5,5") ] [].

Definition renderDoor (door : Door.t) : list Node :=
  let scale := ofZ 50 in
  let x := nmul (toNumber (Door.x door)) scale in
  let y := nmul (toNumber (Door.y door)) scale in
  let width := nmul (Fin (9 # 10)) scale in
  let rect :=
    El "rect"
       [ ("x", ANum x); ("y", ANum y); ("width", ANum width); ("height", AStr "3");
         ("fill", AStr "none"); ("stroke", AStr "#e74c3c"); ("stroke-width", AStr "2") ] [] in
  let radius := nmul width (Fin (8 # 10)) in
  let path :=
    El "path"
       [ ("d", ATemplate [ Lit "M "; Val x; Lit " "; Val y; Lit " A "; Val radius; Lit " ";
                           Val radius; Lit " 0 0 1 "; Val (nadd x width); Lit " ";
                           Val (nadd y (ofZ 3)) ]);
         ("fill", AStr "none"); ("stroke", AStr "#e74c3c"); ("stroke-width", AStr "1");
         ("stroke-dasharray", AStr "2,2") ] [] in
  [ rect; path ].

Definition renderNoRoomsMessage (width height : num) : Node :=
  El "text"
     [ ("x", ANum (ndiv width (ofZ 2))); ("y", ANum (ndiv height (ofZ 2)));
       ("text-anchor", AStr "middle"); ("fill", AStr "#666"); ("font-size", AStr "16") ]
     [ Text [ Lit "No rooms generated" ] ].

(** [showErrorMessage(message)]: writes into [svg-container] without
    checking that it exists. *)
Definition showErrorMessage (message : string) (st : State) : Result State :=
  match svgContainer st with
  | None => Threw typeError
  | Some _ => Ok (set_display (ErrorMessage message) st)
  end.

(** The [<svg>] element [renderFloorPlan] builds for one floor; a throw
    inside [renderRoom] leaves it unfinished. *)
Definition drawFloor (floorData : Floor.t) : Result Node :=
  let w := nmul (toNumber (Floor.width floorData)) (ofZ 50) in
  let h := nmul (toNumber (Floor.length floorData)) (ofZ 50) in
  let grid := addGrid w h in
  rooms ←
    match Floor.rooms floorData with
    | Some (room :: more) => forEach renderRoom (room :: more)
    | Some [] | None => Ok [ renderNoRoomsMessage w h ]
    end;
  let walls := map renderWall (default [] (Floor.walls floorData)) in
  let windows := map renderWindow (default [] (Floor.windows floorData)) in
  let doors := concat (map renderDoor (default [] (Floor.doors floorData))) in
  Ok (El "svg"
         [ ("width", AStr "100%"); ("height", AStr "100%");
           ("viewBox", ATemplate [ Lit "0 0 "; Val w; Lit " "; Val h ]);
           ("preserveAspectRatio", AStr "xMidYMid meet");
           ("style.backgroundColor", AStr "#ffffff");
           ("style.border", AStr "1px solid #ddd") ]
         (grid ++ rooms ++ walls ++ windows ++ doors)).

(** What one call of [renderFloorPlan] did:
    - [shown]: the argument of [showErrorMessage], when it was called;
    - [read]: the index [floorIndex] of [floors[floorIndex]], when that
      expression was evaluated;
    - [after]: the state it left, or the exception that escaped together
      with the state at that point. *)
Record Rendering : Type := {
  shown : option string;
  read : option Z;
  after : State * option Message
}.

Definition finish (st : State) (r : Result State) : State * option Message :=
  match r with
  | Ok st' => (st', None)
  | Threw e => (st, Some e)
  end.

Definition renderFloorPlan (st : State) : Rendering :=
  let no_data := "No floor plan data available. Please generate a floor plan first." in
  match floorPlanData st ≫= Response.floors with
  | None | Some [] =>
      {| shown := Some no_data; read := None;
         after := finish st (showErrorMessage no_data st) |}
  | Some floors =>
      let floorIndex := currentFloor st - 1 in
      if Z.of_nat (length floors) <=? floorIndex then
        {| shown := Some "Invalid floor number"; read := None;
           after := finish st (showErrorMessage "Invalid floor number" st) |}
      else
        let floorData := index floors floorIndex in
        {| shown := None; read := Some floorIndex;
           after :=
             match svgContainer st with
             | None => (st, None)
             | Some _ =>
                 let st := set_display Cleared st in
                 match floorData with
                 | None => (st, Some typeError)
                 | Some floorData =>
                     match drawFloor floorData with
                     | Ok svg => (set_display (Picture svg) st, None)
                     | Threw e => (st, Some e)
                     end
                 end
             end |}
  end.

Definition updateFloorDisplay (st : State) : State * option Message :=
  after (renderFloorPlan st).

(** The click handlers of [prev-floor] and [next-floor]. *)
Definition prevFloor (st : State) : State * option Message :=
  if 1 <? currentFloor st then
    updateFloorDisplay
      {| currentFloor := currentFloor st - 1;
         totalFloors := totalFloors st;
         floorPlanData := floorPlanData st;
         chart := chart st;
         svgContainer := svgContainer st;
         metricsDiv := metricsDiv st |}
  else (st, None).

Definition nextFloor (st : State) : State * option Message :=
  if currentFloor st <? totalFloors st then
    updateFloorDisplay
      {| currentFloor := currentFloor st + 1;
         totalFloors := totalFloors st;
         floorPlanData := floorPlanData st;
         chart := chart st;
         svgContainer := svgContainer st;
         metricsDiv := metricsDiv st |}
  else (st, None).

Definition updateAnalysis (metrics : gmap string jsval) (st : State) : State :=
  match metricsDiv st with
  | None => st
  | Some _ =>
      {| currentFloor := currentFloor st;
         totalFloors := totalFloors st;
         floorPlanData := floorPlanData st;
         chart := chart st;
         svgContainer := svgContainer st;
         metricsDiv :=
           Some [ jor (prop metrics "total_area") (JNum (ofZ 0));
                  jor (prop metrics "room_count") (JNum (ofZ 0));
                  jor (prop metrics "efficiency") (JNum (ofZ 0));
                  jor (prop metrics "circulation_area") (JNum (ofZ 0)) ] |}
  end.

Definition updateChart (metrics : gmap string jsval) (st : State) : State :=
  match chart st with
  | Some _ =>
      {| currentFloor := currentFloor st;
         totalFloors := totalFloors st;
         floorPlanData := floorPlanData st;
         chart :=
           Some [ jor (prop metrics "living_area") (JNum (ofZ 30));
                  jor (prop metrics "bedroom_area") (JNum (ofZ 40));
                  jor (prop metrics "kitchen_area") (JNum (ofZ 15));
                  jor (prop metrics "bathroom_area") (JNum (ofZ 10));
                  jor (prop metrics "circulation_area") (JNum (ofZ 5)) ];
         svgContainer := svgContainer st;
         metricsDiv := metricsDiv st |}
  | None => st
  end.

(** How [fetch] and [response.json()] ended; the body, when there is one,
    is a JSON object. *)
Inductive FetchOutcome : Type :=
| FetchRejected (e : Message)
| NotOk (status : Z)
| JsonRejected (e : Message)
| Json (data : Response.t).

(** [generateFloorPlan], from the point where the request has been sent:
    the state it leaves and the message of the error its [catch] block
    reports with [alert], if any. *)
Definition generateFloorPlan (outcome : FetchOutcome) (st : State) : State * option Message :=
  match outcome with
  | FetchRejected e => (st, Some e)
  | NotOk status => (st, Some (HttpStatus status))
  | JsonRejected e => (st, Some e)
  | Json data =>
      if truthy (Response.success data) then
        let st :=
          {| currentFloor := 1;
             totalFloors :=
               match Response.floors data with
               | Some floors => Z.of_nat (length floors)
               | None => 1
               end;
             floorPlanData := Some data;
             chart := chart st;
             svgContainer := svgContainer st;
             metricsDiv := metricsDiv st |} in
        match after (renderFloorPlan st) with
        | (st, Some e) => (st, Some e)
        | (st, None) =>
            match Response.metrics data with
            | Some metrics => (updateChart metrics (updateAnalysis metrics st), None)
            | None => (st, None)
            end
        end
      else
        (st, Some (Msg (jor_default (Response.error data) "Unknown error from backend")))
  end.

(** The state the constructor and the [DOMContentLoaded] listener leave,
    given whether Chart.js is loaded and which elements the page has. *)
Definition initial (has_chart has_container has_metrics : bool) : State :=
  {| currentFloor := 1;
     totalFloors := 1;
     floorPlanData := None;
     chart := if has_chart
              then Some (map (fun z => JNum (ofZ z)) [30; 40; 15; 10; 5])
              else None;
     svgContainer := if has_container then Some Welcome else None;
     metricsDiv := if has_metrics then Some [] else None |}.

Definition some_num (z : Z) : option num := Some (ofZ z).

Definition testMetrics : gmap string jsval :=
  list_to_map
    [ ("total_area", JNum (ofZ 53)); ("total_rooms", JNum (ofZ 4));
      ("floors", JNum (ofZ 1)); ("average_efficiency", JNum (Fin (855 # 10))) ].

Definition testData : Response.t :=
  let room t x y w l a :=
    {| Room.type := Some t; Room.x := some_num x; Room.y := some_num y;
       Room.width := some_num w; Room.length := some_num l; Room.area := some_num a |} in
  let wall x1 y1 x2 y2 :=
    {| Wall.x1 := some_num x1; Wall.y1 := some_num y1;
       Wall.x2 := some_num x2; Wall.y2 := some_num y2 |} in
  let door x y := {| Door.x := some_num x; Door.y := some_num y |} in
  {| Response.success := JBool true;
     Response.floors := Some
       [ {| Floor.floor_number := some_num 1;
            Floor.width := some_num 12;
            Floor.length := some_num 10;
            Floor.rooms := Some
              [ room "bedroom" 1 1 4 3 12;
                room "living" 6 1 5 4 20;
                room "kitchen" 1 5 4 3 12;
                room "bathroom" 6 6 3 3 9 ];
            Floor.walls := Some
              [ wall 1 1 5 1; wall 5 1 5 4; wall 5 4 1 4; wall 1 4 1 1;
                wall 6 1 11 1; wall 11 1 11 5; wall 11 5 6 5; wall 6 5 6 1 ];
            Floor.windows := Some [ wall 2 1 4 1; wall 7 1 10 1 ];
            Floor.doors := Some [ door 5 2; door 6 3 ];
            Floor.metrics := Some
              (list_to_map
                 [ ("total_area", JNum (ofZ 53)); ("room_count", JNum (ofZ 4));
                   ("efficiency", JNum (Fin (855 # 10)));
                   ("circulation_area", JNum (ofZ 8)) ]) |} ];
     Response.metrics := Some testMetrics;
     Response.error := None |}.

(** The [Test Render] button. *)
Definition testRendering (st : State) : State * option Message :=
  let st :=
    {| currentFloor := 1;
       totalFloors := 1;
       floorPlanData := Some testData;
       chart := chart st;
       svgContainer := svgContainer st;
       metricsDiv := metricsDiv st |} in
  match after (renderFloorPlan st) with
  | (st, Some e) => (st, Some e)
  | (st, None) =>
      (updateAnalysis testMetrics st, None)
  end.

(** The states the page can be in: the constructor's, and what the
    handlers make of a state it can be in. *)
Inductive reachable : State -> Prop :=
| reach_initial c s m : reachable (initial c s m)
| reach_generate outcome st : reachable st -> reachable (generateFloorPlan outcome st).1
| reach_test st : reachable st -> reachable (testRendering st).1
| reach_prev st : reachable st -> reachable (prevFloor st).1
| reach_next st : reachable st -> reachable (nextFloor st).1.

(** *** Predicates used to state the client's properties *)

(** A form left blank, apart from text that is no number. *)
Definition blank_form : Form :=
  {| width_value := ""; length_value := "ten"; floors_value := "0";
     room_inputs := []; style_value := "";
     include_furniture_checked := false; include_windows_checked := true |}.

(** A numeric field holds no usable number: it is empty, does not start
    with an integer, or denotes zero. *)
Definition no_number (text : string) : Prop :=
  text = "" ∨ parseInt text = NaN ∨ ∃ q, parseInt text = Fin q ∧ (q == 0)%Q.

(** The five slots of the doughnut chart: the metrics field each one
    shows and the value it falls back to. *)
Definition chart_slots : list (string * Z) :=
  [ ("living_area", 30); ("bedroom_area", 40); ("kitchen_area", 15);
    ("bathroom_area", 10); ("circulation_area", 5) ].

Definition absent_or_zero (metrics : gmap string jsval) (key : string) : Prop :=
  metrics !! key = None ∨ ∃ q, metrics !! key = Some (JNum (Fin q)) ∧ (q == 0)%Q.

(** The fields of the building-level metrics object of the output contract. *)
Definition contract_fields : gset string :=
  {[ "total_area"; "total_rooms"; "floors"; "average_efficiency" ]}.

(** [renderFloorPlan] looked a floor up only inside the array, and
    reported an error whenever it did not look one up. *)
Definition lookup_guarded (st : State) : Prop :=
  match read (renderFloorPlan st) with
  | Some i =>
      ∃ data floors floorData,
        floorPlanData st = Some data ∧ Response.floors data = Some floors ∧
        floors ≠ [] ∧ i = currentFloor st - 1 ∧
        0 ≤ i < Z.of_nat (length floors) ∧ index floors i = Some floorData
  | None => is_Some (shown (renderFloorPlan st))
  end.

Definition floor_in_range (st : State) : Prop :=
  1 ≤ currentFloor st ≤ totalFloors st.

(** The state after [Test Render] with [currentFloor] put to 0, as a
    script of the page can put it through [window.floorPlanGenerator]. *)
Definition floor_zero : State :=
  {| currentFloor := 0;
     totalFloors := 1;
     floorPlanData := Some testData;
     chart := None;
     svgContainer := Some Welcome;
     metricsDiv := Some [] |}.

(** A bedroom in the top-left corner of the footprint. *)
Definition corner_room : Room.t :=
  {| Room.type := Some "bedroom"; Room.x := some_num 0; Room.y := some_num 0;
     Room.width := some_num 4; Room.length := some_num 3; Room.area := some_num 12 |}.

(** *** The room rows of the form *)

(** [addRoomInput]: a new row at the end of [room-requirements], its
    select on the first option and its count field holding 1.  The rows
    of the page are taken to be the children of that container. *)
Definition addRoomInput (f : Form) : Form :=
  {| width_value := width_value f;
     length_value := length_value f;
     floors_value := floors_value f;
     room_inputs := room_inputs f ++
                    [ {| room_type_value := "bedroom"; room_count_value := "1" |} ];
     style_value := style_value f;
     include_furniture_checked := include_furniture_checked f;
     include_windows_checked := include_windows_checked f |}.

(** The click handler of the remove button of row [i]:
    [container.removeChild(div)]. *)
Definition removeRoom (i : nat) (f : Form) : Form :=
  {| width_value := width_value f;
     length_value := length_value f;
     floors_value := floors_value f;
     room_inputs := delete i (room_inputs f);
     style_value := style_value f;
     include_furniture_checked := include_furniture_checked f;
     include_windows_checked := include_windows_checked f |}.

(** The request entry [getInputSpecifications] makes of one row. *)
Definition request_of_row (input : RoomInput) : RoomReq :=
  {| req_type := room_type_value input;
     req_count := jor (parseInt (room_count_value input)) (ofZ 1) |}.

(** *** The 3D view *)

(** A box mesh: the three sizes of its geometry, the colour of its
    material and its position. *)
Record Box : Type := {
  box_size : num * num * num;
  box_color : Paint;
  box_position : num * num * num
}.

(** A child of the scene: a mesh, or something else (a light, the grid
    helper) with its [type]. *)
Inductive Object3D : Type :=
| Mesh (box : Box)
| Helper (type : string).

Definition is_mesh (o : Object3D) : bool :=
  match o with
  | Mesh _ => true
  | Helper _ => false
  end.

(** The mesh [update3DView] adds for one room of the floor with index
    [floorIndex]. *)
Definition cube (floorIndex : nat) (floor : Floor.t) (room : Room.t) : Object3D :=
  Mesh {| box_size :=
            (nmul (jor_default (Room.width room) (ofZ 3)) (ofZ 3),
             ofZ 3,
             nmul (jor_default (Room.length room) (ofZ 3)) (ofZ 3));
          box_color := getRoomColor (Room.type room);
          box_position :=
            (nsub (nmul (jor_default (Room.x room) (ofZ 1)) (ofZ 3))
                  (nmul (jor_default (Floor.width floor) (ofZ 12)) (Fin (3 # 2))),
             nmul (ofZ (Z.of_nat floorIndex)) (ofZ 4),
             nsub (nmul (jor_default (Room.y room) (ofZ 1)) (ofZ 3))
                  (nmul (jor_default (Floor.length floor) (ofZ 10)) (Fin (3 # 2)))) |}.

(** [update3DView(floors)] on the children of [this.scene] ([None]: the
    3D view was never set up).  The meshes go, what else is in the scene
    stays, and one mesh per room is added, floor by floor. *)
Definition update3DView (floors : list Floor.t) (scene : option (list Object3D))
    : option (list Object3D) :=
  match scene with
  | None => None
  | Some children =>
      Some (filter (fun child => is_mesh child = false) children ++
            concat (imap (fun floorIndex floor =>
                            map (cube floorIndex floor) (default [] (Floor.rooms floor)))
                         floors))%list
  end.

(** The scene [initialize3DView] sets up. *)
Definition initial_scene : list Object3D :=
  [ Helper "AmbientLight"; Helper "DirectionalLight"; Helper "GridHelper" ].

(** *** What holds of every state the page can be in *)

(** The number of floors of the stored response, as [generateFloorPlan]
    counts them: 1 without a floors array, and 1 before any response. *)
Definition floors_stored (st : State) : Z :=
  match floorPlanData st with
  | Some data =>
      match Response.floors data with
      | Some floors => Z.of_nat (length floors)
      | None => 1
      end
  | None => 1
  end.

Definition consistent (st : State) : Prop :=
  1 ≤ currentFloor st ∧
  totalFloors st = floors_stored st ∧
  (currentFloor st ≤ totalFloors st ∨ currentFloor st = 1) ∧
  (∀ data, floorPlanData st = Some data → truthy (Response.success data) = true).

(** A room of the response has a type. *)
Definition typed (room : Room.t) : Prop := is_Some (Room.type room).

(** Floor 1 of a stored response with two floors. *)
Definition two_floors : State :=
  let floor n :=
    {| Floor.floor_number := some_num n; Floor.width := some_num 12;
       Floor.length := some_num 10; Floor.rooms := Some [ corner_room ];
       Floor.walls := None; Floor.windows := None; Floor.doors := None;
       Floor.metrics := None |} in
  {| currentFloor := 1;
     totalFloors := 2;
     floorPlanData := Some {| Response.success := JBool true;
                              Response.floors := Some [ floor 1; floor 2 ];
                              Response.metrics := None;
                              Response.error := None |};
     chart := None;
     svgContainer := Some Welcome;
     metricsDiv := Some [] |}.

(** A response that reports success and has no floor. *)
Definition no_floors : Response.t :=
  {| Response.success := JBool true; Response.floors := Some [];
     Response.metrics := None; Response.error := None |}.

Definition empty_floor : Floor.t :=
  {| Floor.floor_number := None; Floor.width := None; Floor.length := None;
     Floor.rooms := None; Floor.walls := None; Floor.windows := None;
     Floor.doors := None; Floor.metrics := None |}.

(** The floor of the test data. *)
Definition test_floor : Floor.t :=
  default empty_floor (Response.floors testData ≫= head).

(** A floor with one room that has no type, and a response with it. *)
Definition untyped_floor : Floor.t :=
  {| Floor.floor_number := some_num 1; Floor.width := some_num 12;
     Floor.length := some_num 10;
     Floor.rooms := Some [ {| Room.type := None; Room.x := some_num 1;
                              Room.y := some_num 1; Room.width := some_num 4;
                              Room.length := some_num 3; Room.area := None |} ];
     Floor.walls := None; Floor.windows := None; Floor.doors := None;
     Floor.metrics := None |}.

Definition untyped_response : Response.t :=
  {| Response.success := JBool true; Response.floors := Some [ untyped_floor ];
     Response.metrics := Some testMetrics; Response.error := None |}.

(** *** Valid fields of the form *)

Fixpoint all_digits (text : string) : bool :=
  match text with
  | EmptyString => true
  | String c rest =>
      let n := N_of_ascii c in ((48 <=? n) && (n <=? 57))%N && all_digits rest
  end.

(** A dimension or a number of floors is valid when it is written as a
    positive integer. *)
Definition valid_dimension (text : string) : bool :=
  truthy text && all_digits text && (0 <? default 0 (digitsPrefix 10 text None)).

(** A form with a negative width and a length that is no integer. *)
Definition odd_form : Form :=
  {| width_value := "-5"; length_value := "3.9"; floors_value := "2";
     room_inputs := [ {| room_type_value := "office"; room_count_value := "x" |} ];
     style_value := "minimalist";
     include_furniture_checked := true; include_windows_checked := false |}.


End Client.

(** ** The layout engine behind [POST /generate]

    The client posts its request to [http://localhost:5000/generate] and
    draws what comes back.  The code that answers (the Flask server and
    its [ml_engine]) is not among the sources, so this module is written
    from the design document: its sections 4.1 to 4.7 for the components,
    6 for the request and the response, 7 for the errors.  What the
    document leaves open (the catalog's numbers, how an area and an aspect
    ratio become side lengths, the door and window thresholds) is a
    parameter, gathered in [Policy].  Coordinates are rationals. *)

Module Engine.

Local Open Scope string_scope.
Local Open Scope Q_scope.

(** *** 4.1 Geometry Kernel *)

Module Rect.
Record t : Type := {
  x : Q;
  y : Q;
  width : Q;
  length : Q
}.
End Rect.

Definition Qltb (a b : Q) : bool := negb (Qle_bool b a).

(** Modelled from the spec: the Geometry Kernel's [overlaps(rectA, rectB)],
    strict interior overlap; a shared boundary is not overlap. *)
Definition overlaps (a b : Rect.t) : bool :=
  Qltb (Rect.x a) (Rect.x b + Rect.width b) &&
  Qltb (Rect.x b) (Rect.x a + Rect.width a) &&
  Qltb (Rect.y a) (Rect.y b + Rect.length b) &&
  Qltb (Rect.y b) (Rect.y a + Rect.length a).

(** Modelled from the spec: the Geometry Kernel's [contains(outer, inner)]. *)
Definition contains (outer inner : Rect.t) : bool :=
  Qle_bool (Rect.x outer) (Rect.x inner) &&
  Qle_bool (Rect.x inner + Rect.width inner) (Rect.x outer + Rect.width outer) &&
  Qle_bool (Rect.y outer) (Rect.y inner) &&
  Qle_bool (Rect.y inner + Rect.length inner) (Rect.y outer + Rect.length outer).

Definition area (r : Rect.t) : Q := Rect.width r * Rect.length r.

(** Modelled from the spec: the kernel's validity test; coordinates are
    non-negative and a rectangle without area is invalid. *)
Definition well_formed (r : Rect.t) : bool :=
  Qle_bool 0 (Rect.x r) && Qle_bool 0 (Rect.y r) &&
  Qltb 0 (Rect.width r) && Qltb 0 (Rect.length r).

(** An axis-aligned segment: a wall or a window. *)
Module Segment.
Record t : Type := {
  x1 : Q;
  y1 : Q;
  x2 : Q;
  y2 : Q
}.
End Segment.

(** *** 4.2 Room Catalog *)

Inductive RoomType : Type :=
| bedroom
| living
| kitchen
| bathroom
| office
| hallway
| stairs.

#[export] Instance RoomType_eq_dec : EqDecision RoomType.
Proof. solve_decision. Defined.

Definition type_name (t : RoomType) : string :=
  match t with
  | bedroom => "bedroom"
  | living => "living"
  | kitchen => "kitchen"
  | bathroom => "bathroom"
  | office => "office"
  | hallway => "hallway"
  | stairs => "stairs"
  end.

Definition all_types : list RoomType :=
  [ bedroom; living; kitchen; bathroom; office; hallway; stairs ].

(** Modelled from the spec: the catalog's [lookup(type)] by name; an
    unknown name has no entry. *)
Definition type_of_name (name : string) : option RoomType :=
  List.find (fun t => String.eqb (type_name t) name) all_types.

(** Modelled from the spec: the canonical ordering of room types used to
    break ties, stairs > living > kitchen > bedroom > bathroom > office >
    hallway; the smaller rank goes first. *)
Definition rank (t : RoomType) : nat :=
  match t with
  | stairs => 0
  | living => 1
  | kitchen => 2
  | bedroom => 3
  | bathroom => 4
  | office => 5
  | hallway => 6
  end.

(** What the design document leaves to the implementation:
    - [affinity a b]: the catalog's signed adjacency weight;
    - [target_size style width length t]: width and length of the
      rectangle carved for a room of type [t] in a footprint
      [width] x [length] (its required area at its target aspect ratio);
    - [minimum_size t]: width and length of a room of type [t] at its
      minimum area;
    - [min_door_width]: the shortest shared wall that gets a door;
    - [window_min_length]: the shortest exterior wall that gets a window;
    - [window_on wall]: the window put on an exterior wall segment. *)
Record Policy : Type := {
  affinity : RoomType -> RoomType -> Q;
  target_size : string -> Q -> Q -> RoomType -> Q * Q;
  minimum_size : RoomType -> Q * Q;
  min_door_width : Q;
  window_min_length : Q;
  window_on : Segment.t -> Segment.t
}.

(** *** Rooms, before and after placement *)

(** A placeholder: a requested room not yet positioned. *)
Record Placeholder : Type := {
  pid : nat;
  ptype : RoomType;
  psize : Q * Q
}.

Module RoomInstance.
Record t : Type := {
  id : nat;
  type : RoomType;
  rect : Rect.t;
  floor : nat
}.
End RoomInstance.

(** *** 7 Errors *)

Inductive Error : Type :=
| InvalidInput
| LayoutInfeasible (type : RoomType) (floor : nat)
| StairAlignmentError (floor : nat)
| GeometryError.

Inductive Result (A : Type) : Type :=
| Ok (a : A)
| Err (e : Error).
Arguments Ok {A} a.
Arguments Err {A} e.

#[export] Instance Result_mbind : MBind Result := fun A B k r =>
  match r with
  | Ok a => k a
  | Err e => Err e
  end.

(** [f] over a list, left to right, threading the state; the first error
    ends it. *)
Fixpoint foldM {A S} (f : A -> S -> Result S) (l : list A) (s : S) : Result S :=
  match l with
  | [] => Ok s
  | a :: rest => s' ← f a s; foldM f rest s'
  end.

Fixpoint mapM {A B} (f : A -> Result B) (l : list A) : Result (list B) :=
  match l with
  | [] => Ok []
  | a :: rest => b ← f a; bs ← mapM f rest; Ok (b :: bs)
  end.

(** *** 4.3 Adjacency *)

(** Two rectangles are adjacent when they touch along a segment of
    positive length. *)
Definition adjacent (a b : Rect.t) : bool :=
  ((Qeq_bool (Rect.x a + Rect.width a) (Rect.x b) ||
    Qeq_bool (Rect.x b + Rect.width b) (Rect.x a)) &&
   Qltb (Qmax (Rect.y a) (Rect.y b))
        (Qmin (Rect.y a + Rect.length a) (Rect.y b + Rect.length b)))
  ||
  ((Qeq_bool (Rect.y a + Rect.length a) (Rect.y b) ||
    Qeq_bool (Rect.y b + Rect.length b) (Rect.y a)) &&
   Qltb (Qmax (Rect.x a) (Rect.x b))
        (Qmin (Rect.x a + Rect.width a) (Rect.x b + Rect.width b))).

Definition Qsum (l : list Q) : Q := foldr Qplus 0 l.

(** *** 4.4 Placement Solver *)

Section Solver.

Context (policy : Policy).

(** Modelled from the spec: the solver's ordering of placeholders, by
    descending required area, ties broken by the canonical ordering of
    room types. *)
Definition required_area (p : Placeholder) : Q := (psize p).1 * (psize p).2.

Definition precedes (p q : Placeholder) : bool :=
  Qltb (required_area q) (required_area p) ||
  (Qeq_bool (required_area p) (required_area q) &&
   (rank (ptype p) <? rank (ptype q))%nat).

Fixpoint insert_ordered (p : Placeholder) (l : list Placeholder) : list Placeholder :=
  match l with
  | [] => [ p ]
  | q :: rest => if precedes p q then p :: q :: rest else q :: insert_ordered p rest
  end.

(** Modelled from the spec: step "order placeholders" of the Placement
    Solver; placeholders equal in area and type keep their order. *)
Definition order (l : list Placeholder) : list Placeholder :=
  fold_left (fun sorted p => insert_ordered p sorted) l [].

(** Modelled from the spec: the rectangle carved for a room of size
    [size] from the top-left corner of the free rectangle [f]. *)
Definition carve (f : Rect.t) (size : Q * Q) : Rect.t :=
  {| Rect.x := Rect.x f; Rect.y := Rect.y f;
     Rect.width := size.1; Rect.length := size.2 |}.

Definition fits (f : Rect.t) (size : Q * Q) : bool :=
  Qle_bool size.1 (Rect.width f) && Qle_bool size.2 (Rect.length f).

Definition has_area (r : Rect.t) : bool :=
  Qltb 0 (Rect.width r) && Qltb 0 (Rect.length r).

(** How far a rectangle is from a square. *)
Definition imbalance (r : Rect.t) : Q := Qabs (Rect.width r - Rect.length r).

(** Modelled from the spec: the guillotine cut of what is left of [f]
    once [carve f size] is taken.  The cut along the room's lower edge
    leaves a strip beside the room and a full-width piece below; the cut
    along its right edge leaves a full-length piece beside and a strip
    below.  The cut whose pieces are closer to square is taken, the first
    on a tie; a piece without area is dropped. *)
Definition split (f : Rect.t) (size : Q * Q) : list Rect.t :=
  let '(w, l) := size in
  let beside length :=
    {| Rect.x := Rect.x f + w; Rect.y := Rect.y f;
       Rect.width := Rect.width f - w; Rect.length := length |} in
  let below width :=
    {| Rect.x := Rect.x f; Rect.y := Rect.y f + l;
       Rect.width := width; Rect.length := Rect.length f - l |} in
  let across := filter (fun r => has_area r = true) [ beside l; below (Rect.width f) ] in
  let along := filter (fun r => has_area r = true) [ beside (Rect.length f); below w ] in
  if Qle_bool (Qsum (map imbalance across)) (Qsum (map imbalance along))
  then across else along.

(** Modelled from the spec: the adjacency score of putting a room of
    type [t] at [r]: the sum of the affinity weights to the rooms already
    placed that it would touch. *)
Definition score (rooms : list RoomInstance.t) (t : RoomType) (r : Rect.t) : Q :=
  Qsum (map (fun o => affinity policy t (RoomInstance.type o))
            (filter (fun o => adjacent r (RoomInstance.rect o) = true) rooms)).

(** A free rectangle that can take the room, with what taking it gains. *)
Record Candidate : Type := {
  handle : nat;
  spot : Rect.t;
  gain : Q;
  leftover : Q
}.

Definition better (c best : Candidate) : bool :=
  Qltb (gain best) (gain c) ||
  (Qeq_bool (gain c) (gain best) && Qltb (leftover c) (leftover best)).

Definition candidates (free : list Rect.t) (rooms : list RoomInstance.t)
    (p : Placeholder) : list Candidate :=
  omap (fun '(i, f) =>
          if fits f (psize p)
          then Some {| handle := i; spot := f;
                       gain := score rooms (ptype p) (carve f (psize p));
                       leftover := area f - required_area p |}
          else None)
       (imap pair free).

(** Modelled from the spec: step 1 of the Placement Solver.  Among the
    free rectangles that can take the room, the one with the highest
    adjacency score; on a tie the one with the smallest leftover area; on
    a further tie the one with the lowest handle. *)
Definition select (free : list Rect.t) (rooms : list RoomInstance.t)
    (p : Placeholder) : option Candidate :=
  fold_left (fun best c =>
               match best with
               | None => Some c
               | Some b => if better c b then Some c else Some b
               end)
            (candidates free rooms p) None.

(** The solver's state for one floor: the free rectangles, the pinned
    rooms, the rooms placed so far in placement order, and whether the
    one shrink pass has been spent. *)
Record Solver : Type := {
  free : list Rect.t;
  pinned : list RoomInstance.t;
  placed : list RoomInstance.t;
  retried : bool
}.

(** Modelled from the spec: steps 1 and 2 of the Placement Solver for
    one placeholder; [None] when no free rectangle can take it. *)
Definition place (floor : nat) (p : Placeholder) (s : Solver) : option Solver :=
  c ← select (free s) (pinned s ++ placed s) p;
  Some {| free := delete (handle c) (free s) ++ split (spot c) (psize p);
          pinned := pinned s;
          placed := placed s ++
                    [ {| RoomInstance.id := pid p; RoomInstance.type := ptype p;
                         RoomInstance.rect := carve (spot c) (psize p);
                         RoomInstance.floor := floor |} ];
          retried := retried s |}.

(** Index of the largest room whose index is not in [skip]; the first on
    a tie. *)
Definition largest (skip : list nat) (rooms : list RoomInstance.t) : option nat :=
  fst <$>
  fold_left (fun best '(i, r) =>
               if bool_decide (i ∈ skip) then best
               else match best with
                    | None => Some (i, r)
                    | Some (j, b) =>
                        if Qltb (area (RoomInstance.rect b)) (area (RoomInstance.rect r))
                        then Some (i, r) else Some (j, b)
                    end)
            (imap pair rooms) None.

(** Modelled from the spec: shrinking one placed room to its minimum
    size, keeping its corner; the space given up goes back to the free
    rectangles.  A room not larger than its minimum size stays. *)
Definition shrink_room (i : nat) (s : Solver) : Solver :=
  match placed s !! i with
  | None => s
  | Some r =>
      let size := minimum_size policy (RoomInstance.type r) in
      if has_area (carve (RoomInstance.rect r) size) && fits (RoomInstance.rect r) size
      then {| free := free s ++ split (RoomInstance.rect r) size;
              pinned := pinned s;
              placed := <[ i := {| RoomInstance.id := RoomInstance.id r;
                                   RoomInstance.type := RoomInstance.type r;
                                   RoomInstance.rect := carve (RoomInstance.rect r) size;
                                   RoomInstance.floor := RoomInstance.floor r |} ]> (placed s);
              retried := retried s |}
      else s
  end.

(** Modelled from the spec: the back-track of step 3, shrinking the two
    largest rooms placed so far; pinned rooms do not move. *)
Definition shrink (s : Solver) : Solver :=
  let s :=
    match largest [] (placed s) with
    | None => s
    | Some i =>
        match largest [ i ] (placed s) with
        | None => shrink_room i s
        | Some j => shrink_room j (shrink_room i s)
        end
    end in
  {| free := free s; pinned := pinned s; placed := placed s; retried := true |}.

(** Modelled from the spec: steps 1 to 3 of the Placement Solver for one
    placeholder.  When nothing can take the room and the shrink pass has
    not been spent, shrink and retry once; otherwise the layout is
    infeasible.  A room without area is a defect. *)
Definition place_or_retry (floor : nat) (p : Placeholder) (s : Solver) : Result Solver :=
  if negb (Qltb 0 (psize p).1 && Qltb 0 (psize p).2) then Err GeometryError
  else
    match place floor p s with
    | Some s' => Ok s'
    | None =>
        if retried s then Err (LayoutInfeasible (ptype p) floor)
        else
          match place floor p (shrink s) with
          | Some s' => Ok s'
          | None => Err (LayoutInfeasible (ptype p) floor)
          end
    end.

(** Modelled from the spec: step 4, the Placement Solver over the
    placeholders of one floor, in order. *)
Definition solve (floor : nat) (ps : list Placeholder) (s : Solver) : Result Solver :=
  foldM (place_or_retry floor) (order ps) s.

End Solver.

(** *** 4.6 Multi-Floor Coordinator *)

Section Coordinator.

Context (policy : Policy).

Definition is_stairs (t : RoomType) : bool := bool_decide (t = stairs).

Definition footprint_rect (footprint : Q * Q) : Rect.t :=
  {| Rect.x := 0; Rect.y := 0; Rect.width := footprint.1; Rect.length := footprint.2 |}.

(** The solver's state before anything is placed: the whole footprint
    is one free rectangle. *)
Definition start (footprint : Q * Q) : Solver :=
  {| free := [ footprint_rect footprint ]; pinned := []; placed := []; retried := false |}.

(** What is left of the free rectangle [f] around the rectangle [r]
    inside it: the full-length pieces to its left and right and the
    pieces above and below it. *)
Definition subtract (f r : Rect.t) : list Rect.t :=
  filter (fun piece => has_area piece = true)
    [ {| Rect.x := Rect.x f; Rect.y := Rect.y f;
         Rect.width := Rect.x r - Rect.x f; Rect.length := Rect.length f |};
      {| Rect.x := Rect.x r + Rect.width r; Rect.y := Rect.y f;
         Rect.width := Rect.x f + Rect.width f - (Rect.x r + Rect.width r);
         Rect.length := Rect.length f |};
      {| Rect.x := Rect.x r; Rect.y := Rect.y f;
         Rect.width := Rect.width r; Rect.length := Rect.y r - Rect.y f |};
      {| Rect.x := Rect.x r; Rect.y := Rect.y r + Rect.length r;
         Rect.width := Rect.width r;
         Rect.length := Rect.y f + Rect.length f - (Rect.y r + Rect.length r) |} ].

(** Modelled from the spec: passing a pinned room into the solver of a
    later floor.  The room keeps its rectangle; the floor fails with
    [StairAlignmentError] when no free rectangle of its footprint holds
    that rectangle.  A pinned rectangle without area is a defect. *)
Definition install (floor : nat) (room : RoomInstance.t) (s : Solver) : Result Solver :=
  if negb (has_area (RoomInstance.rect room)) then Err GeometryError else
  match list_find (fun f => contains f (RoomInstance.rect room) = true) (free s) with
  | Some (i, f) =>
      Ok {| free := delete i (free s) ++ subtract f (RoomInstance.rect room);
            pinned := pinned s ++
                      [ {| RoomInstance.id := RoomInstance.id room;
                           RoomInstance.type := RoomInstance.type room;
                           RoomInstance.rect := RoomInstance.rect room;
                           RoomInstance.floor := floor |} ];
            placed := placed s;
            retried := retried s |}
  | None => Err (StairAlignmentError floor)
  end.

Definition stairs_of (ps : list Placeholder) : list Placeholder :=
  filter (fun p => is_stairs (ptype p) = true) ps.

Definition others_of (ps : list Placeholder) : list Placeholder :=
  filter (fun p => is_stairs (ptype p) = false) ps.

Definition check_footprint (footprint : Q * Q) : Result unit :=
  if has_area (footprint_rect footprint) then Ok () else Err GeometryError.

(** Modelled from the spec: the Multi-Floor Coordinator on floor 1.  The
    stairs placeholders are placed first and their rectangles recorded;
    the other placeholders follow in the same solver run.  Floor 1 has no
    pinned room: the back-track of step 3 shrinks the largest rooms placed
    so far, the stairs among them.  The result is the recorded stairs and
    the solved floor. *)
Definition solve_first (footprint : Q * Q) (ps : list Placeholder)
    : Result (list RoomInstance.t * Solver) :=
  _ ← check_footprint footprint;
  s ← solve policy 1 (stairs_of ps) (start footprint);
  first ← solve policy 1 (others_of ps) s;
  Ok (placed s, first).

(** Modelled from the spec: the Multi-Floor Coordinator on a later
    floor, given the stairs recorded on floor 1. *)
Definition solve_later (floor : nat) (footprint : Q * Q)
    (recorded : list RoomInstance.t) (ps : list Placeholder) : Result Solver :=
  _ ← check_footprint footprint;
  s ← foldM (install floor) recorded (start footprint);
  solve policy floor (others_of ps) s.

(** The rooms of a solved floor. *)
Definition rooms_of (s : Solver) : list RoomInstance.t := pinned s ++ placed s.

(** Modelled from the spec: the Multi-Floor Coordinator, one solver run
    per footprint, floors numbered from 1. *)
Definition coordinate (footprints : list (Q * Q)) (ps : list Placeholder)
    : Result (list (nat * (Q * Q) * list RoomInstance.t)) :=
  match footprints with
  | [] => Ok []
  | footprint :: more =>
      solved ← solve_first footprint ps;
      later ← mapM (fun '(i, fp) =>
                      s ← solve_later (2 + i) fp solved.1 ps;
                      Ok ((2 + i)%nat, fp, rooms_of s))
                   (imap pair more);
      Ok ((1%nat, footprint, rooms_of solved.2) :: later)
  end.

End Coordinator.

(** *** 4.5 Circulation Builder *)

Module Door.
Record t : Type := {
  x : Q;
  y : Q;
  between : nat * nat
}.
End Door.

Section Circulation.

Context (policy : Policy).

(** Modelled from the spec: the exterior walls along the footprint
    boundary. *)
Definition exterior_walls (footprint : Q * Q) : list Segment.t :=
  let '(w, l) := footprint in
  [ {| Segment.x1 := 0; Segment.y1 := 0; Segment.x2 := w; Segment.y2 := 0 |};
    {| Segment.x1 := w; Segment.y1 := 0; Segment.x2 := w; Segment.y2 := l |};
    {| Segment.x1 := w; Segment.y1 := l; Segment.x2 := 0; Segment.y2 := l |};
    {| Segment.x1 := 0; Segment.y1 := l; Segment.x2 := 0; Segment.y2 := 0 |} ].

(** The edge two rooms share, if they are adjacent. *)
Definition shared_edge (a b : Rect.t) : option Segment.t :=
  let ylo := Qmax (Rect.y a) (Rect.y b) in
  let yhi := Qmin (Rect.y a + Rect.length a) (Rect.y b + Rect.length b) in
  let xlo := Qmax (Rect.x a) (Rect.x b) in
  let xhi := Qmin (Rect.x a + Rect.width a) (Rect.x b + Rect.width b) in
  if Qeq_bool (Rect.x a + Rect.width a) (Rect.x b) && Qltb ylo yhi then
    Some {| Segment.x1 := Rect.x b; Segment.y1 := ylo;
            Segment.x2 := Rect.x b; Segment.y2 := yhi |}
  else if Qeq_bool (Rect.x b + Rect.width b) (Rect.x a) && Qltb ylo yhi then
    Some {| Segment.x1 := Rect.x a; Segment.y1 := ylo;
            Segment.x2 := Rect.x a; Segment.y2 := yhi |}
  else if Qeq_bool (Rect.y a + Rect.length a) (Rect.y b) && Qltb xlo xhi then
    Some {| Segment.x1 := xlo; Segment.y1 := Rect.y b;
            Segment.x2 := xhi; Segment.y2 := Rect.y b |}
  else if Qeq_bool (Rect.y b + Rect.length b) (Rect.y a) && Qltb xlo xhi then
    Some {| Segment.x1 := xlo; Segment.y1 := Rect.y a;
            Segment.x2 := xhi; Segment.y2 := Rect.y a |}
  else None.

Definition segment_length (s : Segment.t) : Q :=
  Qabs (Segment.x2 s - Segment.x1 s) + Qabs (Segment.y2 s - Segment.y1 s).

(** Every pair of a list, the earlier element first. *)
Fixpoint pairs {A} (l : list A) : list (A * A) :=
  match l with
  | [] => []
  | a :: rest => map (pair a) rest ++ pairs rest
  end.

(** Modelled from the spec: the interior walls, one along every edge
    two rooms share. *)
Definition interior_walls (rooms : list RoomInstance.t) : list Segment.t :=
  omap (fun '(a, b) => shared_edge (RoomInstance.rect a) (RoomInstance.rect b))
       (pairs rooms).

(** Modelled from the spec: a door at the midpoint of the wall two rooms
    share, when their affinity is not negative and the wall is at least
    as long as the minimum door width. *)
Definition doors_of (rooms : list RoomInstance.t) : list Door.t :=
  omap (fun '(a, b) =>
          wall ← shared_edge (RoomInstance.rect a) (RoomInstance.rect b);
          if Qle_bool 0 (affinity policy (RoomInstance.type a) (RoomInstance.type b)) &&
             Qle_bool (min_door_width policy) (segment_length wall)
          then Some {| Door.x := (Segment.x1 wall + Segment.x2 wall) / 2;
                       Door.y := (Segment.y1 wall + Segment.y2 wall) / 2;
                       Door.between := (RoomInstance.id a, RoomInstance.id b) |}
          else None)
       (pairs rooms).

(** The edges of a room that lie on the footprint boundary. *)
Definition exterior_edges (footprint : Q * Q) (r : Rect.t) : list Segment.t :=
  let '(w, l) := footprint in
  (if Qeq_bool (Rect.y r) 0
   then [ {| Segment.x1 := Rect.x r; Segment.y1 := 0;
             Segment.x2 := Rect.x r + Rect.width r; Segment.y2 := 0 |} ] else []) ++
  (if Qeq_bool (Rect.x r + Rect.width r) w
   then [ {| Segment.x1 := w; Segment.y1 := Rect.y r;
             Segment.x2 := w; Segment.y2 := Rect.y r + Rect.length r |} ] else []) ++
  (if Qeq_bool (Rect.y r + Rect.length r) l
   then [ {| Segment.x1 := Rect.x r; Segment.y1 := l;
             Segment.x2 := Rect.x r + Rect.width r; Segment.y2 := l |} ] else []) ++
  (if Qeq_bool (Rect.x r) 0
   then [ {| Segment.x1 := 0; Segment.y1 := Rect.y r;
             Segment.x2 := 0; Segment.y2 := Rect.y r + Rect.length r |} ] else []).

(** Modelled from the spec: the windows, one on every exterior wall
    segment at least [window_min_length] long of a room that is neither
    stairs nor hallway, when [include_windows] is set. *)
Definition windows_of (include_windows : bool) (footprint : Q * Q)
    (rooms : list RoomInstance.t) : list Segment.t :=
  if include_windows then
    flat_map (fun room =>
                match RoomInstance.type room with
                | stairs | hallway => []
                | _ =>
                    map (window_on policy)
                        (filter (fun wall =>
                                   Qle_bool (window_min_length policy)
                                            (segment_length wall) = true)
                                (exterior_edges footprint (RoomInstance.rect room)))
                end)
             rooms
  else [].

End Circulation.

(** *** 4.7 Metrics Calculator *)

Module FloorMetrics.
Record t : Type := {
  total_area : Q;
  room_count : nat;
  efficiency : Q;
  circulation_area : Q;
  per_category : list (RoomType * Q)
}.
End FloorMetrics.

Module BuildingMetrics.
Record t : Type := {
  total_area : Q;
  total_rooms : nat;
  floors : nat;
  average_efficiency : Q
}.
End BuildingMetrics.

Definition clamp (lo hi q : Q) : Q := Qmax lo (Qmin hi q).

Definition room_area (room : RoomInstance.t) : Q := area (RoomInstance.rect room).

Definition rooms_area (rooms : list RoomInstance.t) : Q := Qsum (map room_area rooms).

(** Modelled from the spec: the Metrics Calculator for one floor. *)
Definition floor_metrics (footprint : Q * Q) (rooms : list RoomInstance.t) : FloorMetrics.t :=
  let total := footprint.1 * footprint.2 in
  {| FloorMetrics.total_area := total;
     FloorMetrics.room_count := length rooms;
     FloorMetrics.efficiency := clamp 0 100 (100 * rooms_area rooms / total);
     FloorMetrics.circulation_area := total - rooms_area rooms;
     FloorMetrics.per_category :=
       map (fun t => (t, rooms_area (filter (fun room => RoomInstance.type room = t) rooms)))
           all_types |}.

Module Floor.
Record t : Type := {
  floor_number : nat;
  width : Q;
  length : Q;
  rooms : list RoomInstance.t;
  walls : list Segment.t;
  windows : list Segment.t;
  doors : list Door.t;
  metrics : FloorMetrics.t
}.
End Floor.

(** Modelled from the spec: the Metrics Calculator for the building:
    areas and room counts summed over the floors, efficiency averaged. *)
Definition building_metrics (floors : list Floor.t) : BuildingMetrics.t :=
  {| BuildingMetrics.total_area :=
       Qsum (map (fun f => FloorMetrics.total_area (Floor.metrics f)) floors);
     BuildingMetrics.total_rooms :=
       sum_list (map (fun f => FloorMetrics.room_count (Floor.metrics f)) floors);
     BuildingMetrics.floors := length floors;
     BuildingMetrics.average_efficiency :=
       match floors with
       | [] => 0
       | _ => Qsum (map (fun f => FloorMetrics.efficiency (Floor.metrics f)) floors)
              / inject_Z (Z.of_nat (length floors))
       end |}.

Module Building.
Record t : Type := {
  floors : list Floor.t;
  metrics : BuildingMetrics.t
}.
End Building.

(** *** 6 The request, the generator and the response *)

Module Request.
Record t : Type := {
  width : Z;
  length : Z;
  floors : Z;
  rooms : list (string * Z);
  style : string;
  include_furniture : bool;
  include_windows : bool
}.
End Request.

Section Generator.

Context (policy : Policy).

(** Modelled from the spec: the [InvalidInput] checks made before
    solving: a non-positive footprint dimension, an empty room list, an
    unknown room type. *)
Definition validate (req : Request.t) : Result (list (RoomType * nat)) :=
  if (Request.width req <=? 0)%Z || (Request.length req <=? 0)%Z then Err InvalidInput
  else
    match Request.rooms req with
    | [] => Err InvalidInput
    | rooms =>
        mapM (fun '(name, count) =>
                match type_of_name name with
                | Some t => Ok (t, Z.to_nat count)
                | None => Err InvalidInput
                end)
             rooms
    end.

(** Modelled from the spec: the flattened list of placeholders of one
    floor, numbered in request order. *)
Definition placeholders (style : string) (footprint : Q * Q)
    (requests : list (RoomType * nat)) : list Placeholder :=
  imap (fun i t =>
          {| pid := i; ptype := t;
             psize := target_size policy style footprint.1 footprint.2 t |})
       (flat_map (fun '(t, count) => replicate count t) requests).

(** Modelled from the spec: a finalized floor: its rooms, the walls,
    windows and doors the Circulation Builder derives from them, and its
    metrics. *)
Definition finalize (include_windows : bool)
    (layout : nat * (Q * Q) * list RoomInstance.t) : Floor.t :=
  let '(number, footprint, rooms) := layout in
  {| Floor.floor_number := number;
     Floor.width := footprint.1;
     Floor.length := footprint.2;
     Floor.rooms := rooms;
     Floor.walls := exterior_walls footprint ++ interior_walls rooms;
     Floor.windows := windows_of policy include_windows footprint rooms;
     Floor.doors := doors_of policy rooms;
     Floor.metrics := floor_metrics footprint rooms |}.

(** Modelled from the spec: one generation request, from validation to
    the finished building. *)
Definition generate (req : Request.t) : Result Building.t :=
  requests ← validate req;
  let footprint := (inject_Z (Request.width req), inject_Z (Request.length req)) in
  layouts ← coordinate policy
              (replicate (Z.to_nat (Request.floors req)) footprint)
              (placeholders (Request.style req) footprint requests);
  let floors := map (finalize (Request.include_windows req)) layouts in
  Ok {| Building.floors := floors; Building.metrics := building_metrics floors |}.

End Generator.

(** The error string of a failure: its kind, with the room type or the
    floor it names. *)
Definition describe (e : Error) : string :=
  match e with
  | InvalidInput => "InvalidInput"
  | LayoutInfeasible t floor =>
      "LayoutInfeasible: " +:+ type_name t +:+ " on floor " +:+ pretty floor
  | StairAlignmentError floor => "StairAlignmentError: floor " +:+ pretty floor
  | GeometryError => "GeometryError"
  end.

Definition wire_num (q : Q) : option num := Some (Fin q).

Definition wire_nat (n : nat) : jsval := JNum (ofZ (Z.of_nat n)).

Definition wire_room (room : RoomInstance.t) : Client.Room.t :=
  let r := RoomInstance.rect room in
  {| Client.Room.type := Some (type_name (RoomInstance.type room));
     Client.Room.x := wire_num (Rect.x r);
     Client.Room.y := wire_num (Rect.y r);
     Client.Room.width := wire_num (Rect.width r);
     Client.Room.length := wire_num (Rect.length r);
     Client.Room.area := wire_num (area r) |}.

Definition wire_segment (s : Segment.t) : Client.Wall.t :=
  {| Client.Wall.x1 := wire_num (Segment.x1 s); Client.Wall.y1 := wire_num (Segment.y1 s);
     Client.Wall.x2 := wire_num (Segment.x2 s); Client.Wall.y2 := wire_num (Segment.y2 s) |}.

Definition wire_door (d : Door.t) : Client.Door.t :=
  {| Client.Door.x := wire_num (Door.x d); Client.Door.y := wire_num (Door.y d) |}.

Definition wire_floor_metrics (m : FloorMetrics.t) : gmap string jsval :=
  list_to_map
    [ ("total_area", JNum (Fin (FloorMetrics.total_area m)));
      ("room_count", wire_nat (FloorMetrics.room_count m));
      ("efficiency", JNum (Fin (FloorMetrics.efficiency m)));
      ("circulation_area", JNum (Fin (FloorMetrics.circulation_area m))) ].

Definition wire_floor (f : Floor.t) : Client.Floor.t :=
  {| Client.Floor.floor_number := Some (ofZ (Z.of_nat (Floor.floor_number f)));
     Client.Floor.width := wire_num (Floor.width f);
     Client.Floor.length := wire_num (Floor.length f);
     Client.Floor.rooms := Some (map wire_room (Floor.rooms f));
     Client.Floor.walls := Some (map wire_segment (Floor.walls f));
     Client.Floor.windows := Some (map wire_segment (Floor.windows f));
     Client.Floor.doors := Some (map wire_door (Floor.doors f));
     Client.Floor.metrics := Some (wire_floor_metrics (Floor.metrics f)) |}.

Definition wire_building_metrics (m : BuildingMetrics.t) : gmap string jsval :=
  list_to_map
    [ ("total_area", JNum (Fin (BuildingMetrics.total_area m)));
      ("total_rooms", wire_nat (BuildingMetrics.total_rooms m));
      ("floors", wire_nat (BuildingMetrics.floors m));
      ("average_efficiency", JNum (Fin (BuildingMetrics.average_efficiency m))) ].

(** Modelled from the spec: the response in the schema of the output
    contract.  A failure gives [success: false] with the error string and
    neither [floors] nor [metrics]. *)
Definition respond (r : Result Building.t) : Client.Response.t :=
  match r with
  | Ok building =>
      {| Client.Response.success := JBool true;
         Client.Response.floors := Some (map wire_floor (Building.floors building));
         Client.Response.metrics := Some (wire_building_metrics (Building.metrics building));
         Client.Response.error := None |}
  | Err e =>
      {| Client.Response.success := JBool false;
         Client.Response.floors := None;
         Client.Response.metrics := None;
         Client.Response.error := Some (describe e) |}
  end.

(** *** A catalog to run the engine on

    The document fixes one catalog number, the bedroom's minimum area of
    9; the rest of this policy is a sample. *)
Definition sample_policy : Policy :=
  {| affinity := fun a b =>
       match a, b with
       | bedroom, bedroom => 2
       | bathroom, kitchen | kitchen, bathroom => -3
       | living, kitchen | kitchen, living => 2
       | bedroom, bathroom | bathroom, bedroom => 1
       | _, _ => 0
       end;
     target_size := fun _ _ _ t =>
       match t with
       | bedroom => (4, 3)
       | living => (5, 4)
       | kitchen => (3, 3)
       | bathroom => (2, 2)
       | office => (3, 3)
       | hallway => (4, 1)
       | stairs => (2, 3)
       end;
     minimum_size := fun t =>
       match t with
       | bedroom => (3, 3)
       | living => (4, 3)
       | kitchen => (2, 2)
       | bathroom => (2, 1)
       | office => (2, 2)
       | hallway => (2, 1)
       | stairs => (2, 3)
       end;
     min_door_width := 9 # 10;
     window_min_length := 2;
     window_on := fun wall => wall |}.

(** Scenario A of the document. *)
Definition scenario_a : Request.t :=
  {| Request.width := 12; Request.length := 10; Request.floors := 1;
     Request.rooms :=
       [ ("bedroom", 2%Z); ("living", 1%Z); ("kitchen", 1%Z); ("bathroom", 1%Z) ];
     Request.style := "modern";
     Request.include_furniture := false; Request.include_windows := true |}.

(** Scenario B: a bedroom in a footprint of 1 x 1. *)
Definition scenario_b : Request.t :=
  {| Request.width := 1; Request.length := 1; Request.floors := 1;
     Request.rooms := [ ("bedroom", 1%Z) ];
     Request.style := "modern";
     Request.include_furniture := false; Request.include_windows := true |}.

(** Scenario C: two floors of 10 x 10 with stairs. *)
Definition scenario_c : Request.t :=
  {| Request.width := 10; Request.length := 10; Request.floors := 2;
     Request.rooms := [ ("stairs", 1%Z); ("living", 1%Z); ("bedroom", 2%Z) ];
     Request.style := "modern";
     Request.include_furniture := false; Request.include_windows := false |}.

(** *** Predicates used to state the engine's properties *)

(** No two rectangles of the list overlap. *)
Fixpoint separated (l : list Rect.t) : Prop :=
  match l with
  | [] => True
  | r :: rest => Forall (fun o => overlaps r o = false) rest ∧ separated rest
  end.

(** All the rectangles a solver state accounts for: its rooms' and the
    free ones. *)
Definition all_rects (s : Solver) : list Rect.t :=
  map RoomInstance.rect (pinned s) ++ map RoomInstance.rect (placed s) ++ free s.

(** From [s] to [s'] the solver has placed rooms for the placeholders
    [ps], in this order, after the rooms it had: the pinned rooms are the
    same, the types of the placed rooms are those it had followed by those
    of [ps], a property of the floor index of every placed room is kept, and
    rectangles that did not overlap still do not. *)
Definition solver_evolves (P : nat -> Prop) (ps : list Placeholder) (s s' : Solver) : Prop :=
  pinned s' = pinned s ∧
  map RoomInstance.type (placed s')
  = (map RoomInstance.type (placed s) ++ map ptype ps)%list ∧
  (Forall (fun room => P (RoomInstance.floor room)) (placed s) →
   Forall (fun room => P (RoomInstance.floor room)) (placed s')) ∧
  (separated (all_rects s) → separated (all_rects s')).

(** The rectangles of the stairs of a floor, in the order of its rooms. *)
Definition stairs_rects (rooms : list RoomInstance.t) : list Rect.t :=
  map RoomInstance.rect (filter (fun room => RoomInstance.type room = stairs) rooms).

(** The building of a result, empty for a failure; and the buildings
    the engine lays out for the scenarios. *)
Definition built (r : Result Building.t) : Building.t :=
  match r with
  | Ok building => building
  | Err _ => {| Building.floors := []; Building.metrics := building_metrics [] |}
  end.

Definition building_a : Building.t := built (generate sample_policy scenario_a).

Definition building_c : Building.t := built (generate sample_policy scenario_c).

(** [inner] has the corner of [outer] and is not larger than it. *)
Definition same_corner_within (outer inner : Rect.t) : Prop :=
  Rect.x inner = Rect.x outer ∧ Rect.y inner = Rect.y outer ∧
  Rect.width inner <= Rect.width outer ∧ Rect.length inner <= Rect.length outer.

(** From [s] to [s'] every room placed in [s] is still there, at the same
    position in placement order, with its corner, and not larger. *)
Definition settled (s s' : Solver) : Prop :=
  ∀ i room, placed s !! i = Some room →
    ∃ room', placed s' !! i = Some room' ∧
             same_corner_within (RoomInstance.rect room) (RoomInstance.rect room').




End Engine.

(** ** Properties of the client *)

Module ClientFacts.

Import Client.
Local Open Scope string_scope.
Local Open Scope Z_scope.

Lemma parseInt_empty : parseInt "" = NaN.
Proof. reflexivity. Qed.

Lemma jor_falsy {A} `{Truthy A} (a b : A) : truthy a = false → jor a b = b.
Proof. unfold jor. intros ->. reflexivity. Qed.

Lemma jor_truthy {A} `{Truthy A} (a b : A) : truthy a = true → jor a b = a.
Proof. unfold jor. intros ->. reflexivity. Qed.

Lemma no_number_falsy text : no_number text → truthy (parseInt text) = false.
Proof.
  intros [-> | [-> | (q & -> & Hq)]]; try reflexivity.
  cbn. apply Qeq_bool_iff in Hq. rewrite Hq. reflexivity.
Qed.

(** The statement of C4 fails for a field that holds a number which is
    no valid dimension: a negative width is sent as it is, and of a
    length that is no integer the integer part is sent. *)
Lemma getInputSpecifications_keeps_invalid :
  valid_dimension (width_value odd_form) = false ∧
  valid_dimension (length_value odd_form) = false ∧
  Specs.width (getInputSpecifications odd_form) = ofZ (-5) ∧
  Specs.length (getInputSpecifications odd_form) = ofZ 3 ∧
  ¬ (∀ f, valid_dimension (width_value f) = false →
          Specs.width (getInputSpecifications f) = ofZ 12) ∧
  ¬ (∀ f, valid_dimension (length_value f) = false →
          Specs.length (getInputSpecifications f) = ofZ 10).
Proof.
  refine (conj eq_refl (conj eq_refl (conj eq_refl (conj eq_refl (conj _ _))))).
  - intros H. specialize (H odd_form eq_refl). discriminate H.
  - intros H. specialize (H odd_form eq_refl). discriminate H.
Qed.

Lemma sent_as_parsed text q (dflt : num) :
  parseInt text = Fin q → ¬ (q == 0)%Q → jor (parseInt text) dflt = Fin q.
Proof.
  intros Hp Hq. rewrite Hp. apply jor_truthy. cbn.
  apply negb_true_iff, not_true_iff_false. intros Hz. apply Hq, Qeq_bool_iff, Hz.
Qed.

(** C4, amended.  In the request [getInputSpecifications] assembles, a
    numeric field that is empty, does not start with an integer or
    denotes zero is replaced by its default (width 12, length 10, floors
    1); a field that starts with an integer other than zero is sent as
    that integer (up to 2^53 in size), be it negative or followed by other
    text; no room rows give [{bedroom, 2}, {living, 1}], and an empty style
    gives ["modern"]. *)
Theorem getInputSpecifications_defaults (f : Form) :
  (no_number (width_value f) → Specs.width (getInputSpecifications f) = ofZ 12) ∧
  (no_number (length_value f) → Specs.length (getInputSpecifications f) = ofZ 10) ∧
  (no_number (floors_value f) → Specs.floors (getInputSpecifications f) = ofZ 1) ∧
  (room_inputs f = [] →
   Specs.rooms (getInputSpecifications f)
   = [ {| req_type := "bedroom"; req_count := ofZ 2 |};
       {| req_type := "living"; req_count := ofZ 1 |} ]) ∧
  (style_value f = "" → Specs.style (getInputSpecifications f) = "modern") ∧
  (∀ q, parseInt (width_value f) = Fin q → ¬ (q == 0)%Q →
        (Qabs q <= 9007199254740992)%Q →
        Specs.width (getInputSpecifications f) = Fin q) ∧
  (∀ q, parseInt (length_value f) = Fin q → ¬ (q == 0)%Q →
        (Qabs q <= 9007199254740992)%Q →
        Specs.length (getInputSpecifications f) = Fin q) ∧
  (∀ q, parseInt (floors_value f) = Fin q → ¬ (q == 0)%Q →
        (Qabs q <= 9007199254740992)%Q →
        Specs.floors (getInputSpecifications f) = Fin q).
Proof.
  refine (conj _ (conj _ (conj _ (conj _ (conj _ (conj _ (conj _ _))))))); cbn.
  - intros H. apply jor_falsy, no_number_falsy, H.
  - intros H. apply jor_falsy, no_number_falsy, H.
  - intros H. apply jor_falsy, no_number_falsy, H.
  - intros ->. reflexivity.
  - intros ->. reflexivity.
  - intros q Hp Hq _. apply sent_as_parsed; assumption.
  - intros q Hp Hq _. apply sent_as_parsed; assumption.
  - intros q Hp Hq _. apply sent_as_parsed; assumption.
Qed.

Lemma getInputSpecifications_defaults_witness :
  (Specs.width (getInputSpecifications blank_form) = ofZ 12 ∧
   Specs.length (getInputSpecifications blank_form) = ofZ 10 ∧
   Specs.floors (getInputSpecifications blank_form) = ofZ 1 ∧
   Specs.rooms (getInputSpecifications blank_form)
   = [ {| req_type := "bedroom"; req_count := ofZ 2 |};
       {| req_type := "living"; req_count := ofZ 1 |} ] ∧
   Specs.style (getInputSpecifications blank_form) = "modern") ∧
  Specs.width (getInputSpecifications odd_form) = ofZ (-5) ∧
  Specs.length (getInputSpecifications odd_form) = ofZ 3 ∧
  Specs.floors (getInputSpecifications odd_form) = ofZ 2.
Proof.
  destruct (getInputSpecifications_defaults blank_form) as (Hw & Hl & Hf & Hr & Hs & _).
  destruct (getInputSpecifications_defaults odd_form)
    as (_ & _ & _ & _ & _ & Hw' & Hl' & Hf').
  refine (conj (conj _ (conj _ (conj _ (conj _ _)))) (conj _ (conj _ _))).
  - apply Hw. left. reflexivity.
  - apply Hl. right. left. reflexivity.
  - apply Hf. right. right. exists (inject_Z 0). split; reflexivity.
  - apply Hr. reflexivity.
  - apply Hs. reflexivity.
  - apply Hw'; [reflexivity|discriminate|discriminate].
  - apply Hl'; [reflexivity|discriminate|discriminate].
  - apply Hf'; [reflexivity|discriminate|discriminate].
Defined.

(** White space before the number is skipped, also a no-break space. *)
Example parseInt_nbsp :
  parseInt (String (ascii_of_N 194) (String (ascii_of_N 160) " 12 m")) = ofZ 12.
Proof. reflexivity. Qed.

(** *** What rendering leaves alone *)

(** Two states agree on the instance's three fields. *)
Definition same_fields (a b : State) : Prop :=
  currentFloor a = currentFloor b ∧ totalFloors a = totalFloors b ∧
  floorPlanData a = floorPlanData b.

Lemma same_fields_refl st : same_fields st st.
Proof. repeat split. Qed.

Lemma showErrorMessage_fields message st :
  same_fields (finish st (showErrorMessage message st)).1 st.
Proof.
  unfold showErrorMessage. destruct (svgContainer st); cbn; repeat split.
Qed.

Lemma renderFloorPlan_fields st : same_fields (after (renderFloorPlan st)).1 st.
Proof.
  unfold renderFloorPlan.
  destruct (floorPlanData st ≫= Response.floors) as [[|fl floors]|]; cbn [after];
    try apply showErrorMessage_fields.
  destruct (Z.of_nat (length (fl :: floors)) <=? currentFloor st - 1); cbn [after];
    try apply showErrorMessage_fields.
  destruct (svgContainer st); [|apply same_fields_refl].
  destruct (index (fl :: floors) (currentFloor st - 1)) as [floorData|]; [|repeat split].
  destruct (drawFloor floorData); repeat split.
Qed.

Lemma updateAnalysis_fields metrics st : same_fields (updateAnalysis metrics st) st.
Proof. unfold updateAnalysis. destruct (metricsDiv st); repeat split. Qed.

Lemma updateChart_fields metrics st : same_fields (updateChart metrics st) st.
Proof. unfold updateChart. destruct (chart st); repeat split. Qed.

Lemma same_fields_trans a b c : same_fields a b → same_fields b c → same_fields a c.
Proof. unfold same_fields. intuition congruence. Qed.

(** A response that is taken: the three fields afterwards. *)
Lemma generateFloorPlan_taken data st :
  truthy (Response.success data) = true →
  let st' := (generateFloorPlan (Json data) st).1 in
  currentFloor st' = 1 ∧
  totalFloors st' = match Response.floors data with
                    | Some floors => Z.of_nat (length floors)
                    | None => 1
                    end ∧
  floorPlanData st' = Some data.
Proof.
  intros Hs. cbn. rewrite Hs.
  match goal with |- context [renderFloorPlan ?s] => set (st1 := s) end.
  pose proof (renderFloorPlan_fields st1) as Hr.
  destruct (after (renderFloorPlan st1)) as [st2 [e|]]; cbn in Hr |- *.
  - exact Hr.
  - destruct (Response.metrics data) as [metrics|]; cbn; [|exact Hr].
    change (same_fields (updateChart metrics (updateAnalysis metrics st2)) st1).
    apply (same_fields_trans _ (updateAnalysis metrics st2)); [apply updateChart_fields|].
    apply (same_fields_trans _ st2); [apply updateAnalysis_fields|exact Hr].
Qed.

(** A response that is not taken: nothing changes, and the error
    reported is the response's, or a fixed text when it has none. *)
Lemma generateFloorPlan_refused data st :
  truthy (Response.success data) = false →
  generateFloorPlan (Json data) st
  = (st, Some (Msg (jor_default (Response.error data) "Unknown error from backend"))).
Proof. intros Hs. cbn. rewrite Hs. reflexivity. Qed.

(** The stored response changes only by taking a response whose
    [success] is truthy. *)
Lemma generateFloorPlan_assigns outcome st :
  floorPlanData (generateFloorPlan outcome st).1 ≠ floorPlanData st →
  ∃ data, outcome = Json data ∧ truthy (Response.success data) = true ∧
          floorPlanData (generateFloorPlan outcome st).1 = Some data.
Proof.
  destruct outcome as [e|status|e|data]; try (cbn; congruence).
  intros Hne. destruct (truthy (Response.success data)) eqn:Hs.
  - exists data. split; [reflexivity|]. split; [exact Hs|].
    apply (generateFloorPlan_taken data st Hs).
  - rewrite generateFloorPlan_refused in Hne by exact Hs. done.
Qed.

(** *** Floor navigation *)

Lemma prevFloor_fields st :
  currentFloor (prevFloor st).1
  = (if 1 <? currentFloor st then currentFloor st - 1 else currentFloor st) ∧
  totalFloors (prevFloor st).1 = totalFloors st.
Proof.
  unfold prevFloor, updateFloorDisplay. destruct (1 <? currentFloor st); [|done].
  match goal with |- context [renderFloorPlan ?s] =>
    pose proof (renderFloorPlan_fields s) as (H1 & H2 & _) end.
  cbn in H1, H2. done.
Qed.

Lemma nextFloor_fields st :
  currentFloor (nextFloor st).1
  = (if currentFloor st <? totalFloors st then currentFloor st + 1 else currentFloor st) ∧
  totalFloors (nextFloor st).1 = totalFloors st.
Proof.
  unfold nextFloor, updateFloorDisplay.
  destruct (currentFloor st <? totalFloors st); [|done].
  match goal with |- context [renderFloorPlan ?s] =>
    pose proof (renderFloorPlan_fields s) as (H1 & H2 & _) end.
  cbn in H1, H2. done.
Qed.

(** C8.  A response with [success] set and a non-empty [floors] array
    leaves [currentFloor = 1] and [totalFloors] equal to the number of
    floors; the prev-floor and next-floor handlers keep
    [1 <= currentFloor <= totalFloors], prev stepping down exactly when
    [currentFloor > 1] and next stepping up exactly when
    [currentFloor < totalFloors]. *)
Theorem floor_navigation (st : State) :
  (∀ data floors,
     truthy (Response.success data) = true →
     Response.floors data = Some floors → floors ≠ [] →
     let st' := (generateFloorPlan (Json data) st).1 in
     currentFloor st' = 1 ∧ totalFloors st' = Z.of_nat (length floors) ∧
     floor_in_range st') ∧
  (floor_in_range st →
     floor_in_range (prevFloor st).1 ∧ floor_in_range (nextFloor st).1) ∧
  totalFloors (prevFloor st).1 = totalFloors st ∧
  totalFloors (nextFloor st).1 = totalFloors st ∧
  currentFloor (prevFloor st).1
  = (if 1 <? currentFloor st then currentFloor st - 1 else currentFloor st) ∧
  currentFloor (nextFloor st).1
  = (if currentFloor st <? totalFloors st then currentFloor st + 1 else currentFloor st).
Proof.
  destruct (prevFloor_fields st) as [Hp1 Hp2], (nextFloor_fields st) as [Hn1 Hn2].
  refine (conj _ (conj _ (conj Hp2 (conj Hn2 (conj Hp1 Hn1))))).
  - intros data floors Hs Hf Hne st'.
    pose proof (generateFloorPlan_taken data st Hs) as (Hc & Ht & _).
    fold st' in Hc, Ht. rewrite Hf in Ht.
    refine (conj Hc (conj Ht _)). unfold floor_in_range. rewrite Hc, Ht.
    destruct floors; [done|]. cbn [length]. lia.
  - unfold floor_in_range. intros [Hlo Hhi]. rewrite Hp1, Hp2, Hn1, Hn2.
    destruct (Z.ltb_spec 1 (currentFloor st)), (Z.ltb_spec (currentFloor st) (totalFloors st));
      lia.
Qed.

Lemma floor_navigation_witness :
  let st := (generateFloorPlan (Json testData) (initial true true true)).1 in
  currentFloor st = 1 ∧ totalFloors st = 1 ∧
  floor_in_range (prevFloor st).1 ∧ floor_in_range (nextFloor st).1.
Proof.
  intros st.
  destruct (floor_navigation (initial true true true)) as (Hg & _).
  destruct (Hg testData _ eq_refl eq_refl ltac:(discriminate)) as (Hc & Ht & Hr).
  fold st in Hc, Ht, Hr.
  destruct (floor_navigation st) as (_ & Hk & _).
  destruct (Hk Hr) as [Hp Hn].
  exact (conj Hc (conj Ht (conj Hp Hn))).
Defined.


(** *** The chart *)

Lemma jor_absent_or_zero metrics key (dflt : jsval) :
  absent_or_zero metrics key → jor (prop metrics key) dflt = dflt.
Proof.
  unfold prop. intros [-> | (q & -> & Hq)]; [reflexivity|].
  apply jor_falsy. cbn. apply Qeq_bool_iff in Hq. rewrite Hq. reflexivity.
Qed.

Lemma outside_contract (metrics : gmap string jsval) key :
  dom metrics ⊆ contract_fields → key ∉ contract_fields → metrics !! key = None.
Proof. intros Hdom Hkey. apply not_elem_of_dom. set_solver. Qed.

Lemma updateChart_without_chart metrics st : chart st = None → updateChart metrics st = st.
Proof. unfold updateChart. intros ->. reflexivity. Qed.

(** C9.  With a chart in place, [updateChart] given a metrics object that
    has no field beyond total_area, total_rooms, floors and
    average_efficiency sets the dataset to [30, 40, 15, 10, 5]; and for any
    metrics object, a slot whose field is absent or zero holds that slot's
    default. *)
Theorem updateChart_defaults (metrics : gmap string jsval) (st : State) (old : list jsval) :
  chart st = Some old →
  (dom metrics ⊆ contract_fields →
   chart (updateChart metrics st)
   = Some [ JNum (ofZ 30); JNum (ofZ 40); JNum (ofZ 15); JNum (ofZ 10); JNum (ofZ 5) ]) ∧
  (∀ (i : nat) key dflt,
     chart_slots !! i = Some (key, dflt) → absent_or_zero metrics key →
     ∃ data, chart (updateChart metrics st) = Some data ∧
             data !! i = Some (JNum (ofZ dflt))).
Proof.
  intros Hc. unfold updateChart. rewrite Hc. cbn [chart]. split.
  - intros Hdom.
    rewrite !jor_absent_or_zero;
      [reflexivity|left; apply outside_contract; [exact Hdom|]..];
      unfold contract_fields; rewrite !not_elem_of_union, !not_elem_of_singleton; done.
  - intros i key dflt Hi Hz. eexists. split; [reflexivity|].
    do 5 (destruct i as [|i];
          [cbn in Hi; injection Hi as <- <-; cbn;
           rewrite (jor_absent_or_zero _ _ _ Hz); reflexivity|]).
    cbn in Hi. discriminate.
Qed.

Lemma updateChart_defaults_witness :
  chart (updateChart testMetrics (initial true true true))
  = Some [ JNum (ofZ 30); JNum (ofZ 40); JNum (ofZ 15); JNum (ofZ 10); JNum (ofZ 5) ] ∧
  ∃ data, chart (updateChart (<["kitchen_area" := JNum (ofZ 0)]> testMetrics)
                             (initial true true true)) = Some data ∧
          data !! 2%nat = Some (JNum (ofZ 15)).
Proof.
  split.
  - apply (updateChart_defaults testMetrics (initial true true true) _ eq_refl).
    apply (bool_decide_unpack _). vm_compute. exact I.
  - apply (updateChart_defaults _ (initial true true true) _ eq_refl)
      with (key := "kitchen_area").
    + reflexivity.
    + right. exists (inject_Z 0). split; [|reflexivity].
      apply lookup_insert_eq.
Defined.

(** A field that is there and truthy is what its slot shows. *)
Example updateChart_given :
  chart (updateChart (<["bedroom_area" := JNum (ofZ 24)]> testMetrics)
                     (initial true true true))
  = Some [ JNum (ofZ 30); JNum (ofZ 24); JNum (ofZ 15); JNum (ofZ 10); JNum (ofZ 5) ].
Proof. vm_compute. reflexivity. Qed.

(** *** The floor lookup *)

(** Outside the states the page can be in: with [currentFloor] below 1
    the lookup is evaluated out of bounds, as the only test before it is
    [floorIndex >= floors.length]. *)
Lemma renderFloorPlan_below_first :
  read (renderFloorPlan floor_zero) = Some (-1) ∧
  shown (renderFloorPlan floor_zero) = None ∧
  (after (renderFloorPlan floor_zero)).2 = Some typeError ∧
  ¬ lookup_guarded floor_zero.
Proof.
  repeat split.
  unfold lookup_guarded. cbn.
  intros (data & floors & floorData & _ & _ & _ & _ & Hlt & _). lia.
Qed.






(** *** The 50 px scale *)

Lemma drawFloor_viewBox floorData svg :
  drawFloor floorData = Ok svg →
  getAttribute "viewBox" svg
  = Some (ATemplate [ Lit "0 0 "; Val (nmul (toNumber (Floor.width floorData)) (ofZ 50));
                      Lit " "; Val (nmul (toNumber (Floor.length floorData)) (ofZ 50)) ]).
Proof.
  unfold drawFloor.
  destruct (match Floor.rooms floorData with
            | Some (room :: more) => forEach renderRoom (room :: more)
            | _ => Ok [renderNoRoomsMessage _ _]
            end) as [rooms|e]; cbn; [|discriminate].
  intros [= <-]. reflexivity.
Qed.

Lemma renderWall_scaled wall :
  getAttribute "x1" (renderWall wall) = Some (ANum (nmul (toNumber (Wall.x1 wall)) (ofZ 50))) ∧
  getAttribute "y1" (renderWall wall) = Some (ANum (nmul (toNumber (Wall.y1 wall)) (ofZ 50))) ∧
  getAttribute "x2" (renderWall wall) = Some (ANum (nmul (toNumber (Wall.x2 wall)) (ofZ 50))) ∧
  getAttribute "y2" (renderWall wall) = Some (ANum (nmul (toNumber (Wall.y2 wall)) (ofZ 50))).
Proof. repeat split. Qed.

(** A room none of whose four numbers is zero or missing is drawn to scale. *)
Lemma renderRoom_scaled type x y width length area :
  truthy x = true → truthy y = true → truthy width = true → truthy length = true →
  ∃ rect text,
    renderRoom {| Room.type := Some type; Room.x := Some x; Room.y := Some y;
                  Room.width := Some width; Room.length := Some length;
                  Room.area := area |}
    = Ok (El "g" [] [ rect; text ]) ∧
    getAttribute "x" rect = Some (ANum (nmul x (ofZ 50))) ∧
    getAttribute "y" rect = Some (ANum (nmul y (ofZ 50))) ∧
    getAttribute "width" rect = Some (ANum (nmul width (ofZ 50))) ∧
    getAttribute "height" rect = Some (ANum (nmul length (ofZ 50))).
Proof.
  intros Hx Hy Hw Hl. unfold renderRoom. cbn [Room.type Room.x Room.y Room.width Room.length].
  unfold jor_default. rewrite !jor_truthy by assumption.
  eexists _, _. split; [reflexivity|]. repeat split.
Qed.

(** C5 at a room in the corner of the footprint: the room
    [{x: 0, y: 0, width: 4, length: 3}] should be drawn at pixel (0, 0),
    and [renderRoom] draws its rectangle at (50, 50), since [room.x || 1]
    takes the coordinate 0 for a missing one.  The size is to scale. *)
Theorem renderRoom_corner :
  ∃ rect text,
    renderRoom corner_room = Ok (El "g" [] [ rect; text ]) ∧
    getAttribute "x" rect = Some (ANum (ofZ 50)) ∧
    getAttribute "y" rect = Some (ANum (ofZ 50)) ∧
    getAttribute "width" rect = Some (ANum (ofZ 200)) ∧
    getAttribute "height" rect = Some (ANum (ofZ 150)) ∧
    nmul (toNumber (Room.x corner_room)) (ofZ 50) = ofZ 0 ∧
    nmul (toNumber (Room.y corner_room)) (ofZ 50) = ofZ 0.
Proof. eexists _, _. repeat split. Qed.

End ClientFacts.

(** ** Properties of the engine *)

Module EngineFacts.

Import Engine.
Local Open Scope Q_scope.

(** *** Comparisons *)

Lemma Qltb_lt a b : Qltb a b = true ↔ a < b.
Proof.
  unfold Qltb. rewrite negb_true_iff, <- not_true_iff_false, Qle_bool_iff.
  split; [apply Qnot_le_lt | apply Qlt_not_le].
Qed.

Lemma Qltb_ge a b : Qltb a b = false ↔ b <= a.
Proof. unfold Qltb. rewrite negb_false_iff. apply Qle_bool_iff. Qed.

(** Turns the boolean tests of the hypotheses and the goal into
    inequalities. *)
Ltac reflect_tests :=
  repeat match goal with
  | H : _ && _ = true |- _ => apply andb_true_iff in H; destruct H
  | H : Qltb _ _ = true |- _ => apply Qltb_lt in H
  | H : Qltb _ _ = false |- _ => apply Qltb_ge in H
  | H : Qle_bool _ _ = true |- _ => apply Qle_bool_iff in H
  | H : Qeq_bool _ _ = true |- _ => apply Qeq_bool_iff in H
  end.

(** *** Rectangles *)

Lemma overlaps_false a b :
  overlaps a b = false ↔
  Rect.x b + Rect.width b <= Rect.x a ∨ Rect.x a + Rect.width a <= Rect.x b ∨
  Rect.y b + Rect.length b <= Rect.y a ∨ Rect.y a + Rect.length a <= Rect.y b.
Proof.
  unfold overlaps. rewrite !andb_false_iff, !Qltb_ge. tauto.
Qed.

Lemma overlaps_sym a b : overlaps a b = false → overlaps b a = false.
Proof. rewrite !overlaps_false. tauto. Qed.

Lemma contains_true outer inner :
  contains outer inner = true ↔
  Rect.x outer <= Rect.x inner ∧
  Rect.x inner + Rect.width inner <= Rect.x outer + Rect.width outer ∧
  Rect.y outer <= Rect.y inner ∧
  Rect.y inner + Rect.length inner <= Rect.y outer + Rect.length outer.
Proof.
  unfold contains. rewrite !andb_true_iff, !Qle_bool_iff. tauto.
Qed.

(** What does not overlap a rectangle does not overlap a part of it. *)
Lemma overlaps_inside f part o :
  contains f part = true → overlaps f o = false → overlaps part o = false.
Proof.
  rewrite contains_true, !overlaps_false. intros (H1 & H2 & H3 & H4) [H|[H|[H|H]]].
  - left. lra.
  - right. left. lra.
  - right. right. left. lra.
  - right. right. right. lra.
Qed.

(** *** Lists of rectangles that do not overlap *)

Lemma Forall_sub {A} (P : A → Prop) (l1 l2 : list A) :
  sublist l1 l2 → Forall P l2 → Forall P l1.
Proof.
  induction 1 as [|x l1 l2 _ IH|x l1 l2 _ IH]; intros H.
  - constructor.
  - apply Forall_cons in H as [Hx H]. constructor; auto.
  - apply Forall_cons in H as [_ H]. auto.
Qed.

Lemma separated_sub l1 l2 : sublist l1 l2 → separated l2 → separated l1.
Proof.
  induction 1 as [|x l1 l2 Hs IH|x l1 l2 _ IH]; cbn; intros H.
  - exact I.
  - destruct H as [Hx H]. split; [eapply Forall_sub; eauto|auto].
  - destruct H as [_ H]. auto.
Qed.

Lemma separated_app l1 l2 :
  separated (l1 ++ l2) ↔
  separated l1 ∧ separated l2 ∧
  Forall (fun a => Forall (fun b => overlaps a b = false) l2) l1.
Proof.
  induction l1 as [|a l1 IH]; cbn.
  - intuition constructor.
  - rewrite Forall_app, Forall_cons, IH. tauto.
Qed.

Lemma separated_perm l1 l2 : l1 ≡ₚ l2 → separated l1 → separated l2.
Proof.
  induction 1 as [|x l1 l2 Hp IH|x y l|l1 l2 l3 _ IH1 _ IH2]; cbn.
  - auto.
  - intros [Hx H]. split; [rewrite <- Hp; exact Hx|auto].
  - intros [Hy [Hx H]]. apply Forall_cons in Hy as [Hyx Hy].
    repeat split; auto. constructor; [apply overlaps_sym, Hyx|exact Hx].
  - auto.
Qed.

Lemma separated_lookup l (i j : nat) a b :
  separated l → i ≠ j → l !! i = Some a → l !! j = Some b → overlaps a b = false.
Proof.
  revert i j. induction l as [|r l IH]; intros i j Hs Hne Hi Hj; [done|].
  destruct Hs as [Hr Hs]. rewrite Forall_forall in Hr.
  destruct i as [|i], j as [|j]; cbn in Hi, Hj; simplify_eq.
  - apply Hr. eapply list_elem_of_lookup_2, Hj.
  - apply overlaps_sym, Hr. eapply list_elem_of_lookup_2, Hi.
  - apply (IH i j); auto.
Qed.

(** A rectangle of the list may be traded for non-overlapping parts of
    itself. *)
Lemma separated_refine f rest parts :
  separated (f :: rest) →
  Forall (fun part => contains f part = true) parts →
  separated parts →
  separated (parts ++ rest).
Proof.
  cbn. intros [Hf Hrest] Hin Hparts. apply separated_app. repeat split; auto.
  eapply Forall_impl; [exact Hin|]. cbn. intros part Hpart.
  eapply Forall_impl; [exact Hf|]. cbn. intros o Ho.
  eapply overlaps_inside; eauto.
Qed.

(** *** Carving and cutting *)

Lemma has_area_true r : has_area r = true ↔ 0 < Rect.width r ∧ 0 < Rect.length r.
Proof. unfold has_area. rewrite andb_true_iff, !Qltb_lt. tauto. Qed.

Lemma fits_true f size :
  fits f size = true ↔ size.1 <= Rect.width f ∧ size.2 <= Rect.length f.
Proof. unfold fits. rewrite andb_true_iff, !Qle_bool_iff. tauto. Qed.

Lemma split_sub f w l :
  (sublist (split f (w, l))
     [ {| Rect.x := Rect.x f + w; Rect.y := Rect.y f;
          Rect.width := Rect.width f - w; Rect.length := l |};
       {| Rect.x := Rect.x f; Rect.y := Rect.y f + l;
          Rect.width := Rect.width f; Rect.length := Rect.length f - l |} ]) ∨
  (sublist (split f (w, l))
     [ {| Rect.x := Rect.x f + w; Rect.y := Rect.y f;
          Rect.width := Rect.width f - w; Rect.length := Rect.length f |};
       {| Rect.x := Rect.x f; Rect.y := Rect.y f + l;
          Rect.width := w; Rect.length := Rect.length f - l |} ]).
Proof.
  unfold split.
  match goal with |- context [if ?c then _ else _] => destruct c end;
    [left|right]; apply sublist_filter.
Qed.

(** The room carved from a free rectangle and the pieces cut from the
    rest lie inside that rectangle and do not overlap. *)
Lemma carve_split f size :
  0 < size.1 → 0 < size.2 → fits f size = true →
  Forall (fun part => contains f part = true) (carve f size :: split f size) ∧
  separated (carve f size :: split f size).
Proof.
  destruct size as [w l]. cbn [fst snd]. intros Hw Hl Hfit.
  apply fits_true in Hfit as [Hfw Hfl]. cbn [fst snd] in Hfw, Hfl.
  destruct (split_sub f w l) as [Hsub|Hsub].
  - split.
    + eapply Forall_sub; [apply sublist_skip, Hsub|].
      repeat constructor; apply contains_true; cbn; lra.
    + eapply separated_sub; [apply sublist_skip, Hsub|].
      cbn. repeat split; repeat constructor; apply overlaps_false; cbn; lra.
  - split.
    + eapply Forall_sub; [apply sublist_skip, Hsub|].
      repeat constructor; apply contains_true; cbn; lra.
    + eapply separated_sub; [apply sublist_skip, Hsub|].
      cbn. repeat split; repeat constructor; apply overlaps_false; cbn; lra.
Qed.

(** A pinned rectangle and what is left around it lie inside the free
    rectangle that held it and do not overlap. *)
Lemma subtract_parts f r :
  has_area r = true → contains f r = true →
  Forall (fun part => contains f part = true) (r :: subtract f r) ∧
  separated (r :: subtract f r).
Proof.
  intros Hr Hin. pose proof Hin as Hin'.
  apply has_area_true in Hr as [Hw Hl].
  apply contains_true in Hin as (H1 & H2 & H3 & H4).
  split.
  - eapply Forall_sub; [apply sublist_skip, sublist_filter|].
    constructor; [exact Hin'|].
    repeat constructor; apply contains_true; cbn; lra.
  - eapply separated_sub; [apply sublist_skip, sublist_filter|].
    cbn. repeat split; repeat constructor; apply overlaps_false; cbn; lra.
Qed.

(** *** The solver keeps its rectangles apart *)

Section SolverFacts.

Context (policy : Policy).

Lemma fold_pick {A} (f : A → A → bool) (l : list A) (init : option A) (c : A) :
  fold_left (fun best c =>
               match best with
               | None => Some c
               | Some b => if f c b then Some c else Some b
               end) l init = Some c →
  init = Some c ∨ c ∈ l.
Proof.
  revert init. induction l as [|a l IH]; cbn; intros init H; [auto|].
  apply IH in H as [H|H]; [|right; by constructor].
  destruct init as [b|]; [destruct (f a b)|]; simplify_eq; auto; left + right; by constructor.
Qed.

Lemma select_spec free rooms p c :
  select policy free rooms p = Some c →
  free !! handle c = Some (spot c) ∧ fits (spot c) (psize p) = true.
Proof.
  unfold select. intros H. apply fold_pick in H as [H|H]; [discriminate|].
  unfold candidates in H. apply list_elem_of_omap in H as ([i f] & Hin & Hc).
  apply elem_of_lookup_imap in Hin as (i' & f' & Heq & Hlook). simplify_eq.
  destruct (fits f' (psize p)) eqn:Hfit; simplify_eq. cbn. auto.
Qed.

Lemma delete_insert_same {A} (l : list A) (i : nat) (x : A) :
  delete i (<[i:=x]> l) = delete i l.
Proof.
  revert i. induction l as [|a l IH]; intros [|i]; cbn; try reflexivity.
  f_equal. apply IH.
Qed.

(** Trading one rectangle of a state for parts of it. *)
Lemma separated_trade (before after rest parts : list Rect.t) f :
  before ≡ₚ f :: rest → after ≡ₚ parts ++ rest →
  Forall (fun part => contains f part = true) parts → separated parts →
  separated before → separated after.
Proof.
  intros Hb Ha Hin Hparts Hsep.
  eapply separated_perm; [symmetry; exact Ha|].
  eapply separated_refine; eauto. eapply separated_perm; eauto.
Qed.

Lemma place_step floor p s s' :
  0 < (psize p).1 → 0 < (psize p).2 →
  place policy floor p s = Some s' →
  pinned s' = pinned s ∧ retried s' = retried s ∧
  (∃ room, placed s' = placed s ++ [ room ] ∧ RoomInstance.type room = ptype p ∧
           RoomInstance.floor room = floor) ∧
  (separated (all_rects s) → separated (all_rects s')).
Proof.
  intros Hw Hl. unfold place.
  destruct (select policy (free s) (pinned s ++ placed s) p) as [c|] eqn:Hsel; [|discriminate].
  cbn. intros [= <-]. cbn.
  apply select_spec in Hsel as [Hlook Hfit].
  destruct (carve_split (spot c) (psize p) Hw Hl Hfit) as [Hin Hsep].
  split; [reflexivity|]. split; [reflexivity|]. split; [eexists; eauto|].
  apply separated_trade with
    (f := spot c) (parts := carve (spot c) (psize p) :: split (spot c) (psize p))
    (rest := map RoomInstance.rect (pinned s) ++ map RoomInstance.rect (placed s)
             ++ delete (handle c) (free s)); auto.
  - unfold all_rects. rewrite (delete_Permutation _ _ _ Hlook) at 1. solve_Permutation.
  - unfold all_rects. cbn. rewrite map_app. cbn. solve_Permutation.
Qed.

Lemma shrink_room_step i s :
  pinned (shrink_room policy i s) = pinned s ∧
  retried (shrink_room policy i s) = retried s ∧
  map RoomInstance.type (placed (shrink_room policy i s))
  = map RoomInstance.type (placed s) ∧
  map RoomInstance.floor (placed (shrink_room policy i s))
  = map RoomInstance.floor (placed s) ∧
  (separated (all_rects s) → separated (all_rects (shrink_room policy i s))).
Proof.
  unfold shrink_room. destruct (placed s !! i) as [r|] eqn:Hi; [|done].
  set (size := minimum_size policy (RoomInstance.type r)).
  destruct (has_area (carve (RoomInstance.rect r) size)) eqn:Harea; [|done].
  destruct (fits (RoomInstance.rect r) size) eqn:Hfit; [|done].
  cbn. apply has_area_true in Harea as [Hw Hl]. cbn in Hw, Hl.
  destruct (carve_split (RoomInstance.rect r) size Hw Hl Hfit) as [Hin Hsep].
  split; [reflexivity|]. split; [reflexivity|].
  split; [|split].
  - rewrite !list_fmap_insert. cbn. apply list_insert_id.
    rewrite list_lookup_fmap, Hi. reflexivity.
  - rewrite !list_fmap_insert. cbn. apply list_insert_id.
    rewrite list_lookup_fmap, Hi. reflexivity.
  - apply separated_trade with
      (f := RoomInstance.rect r)
      (parts := carve (RoomInstance.rect r) size :: split (RoomInstance.rect r) size)
      (rest := map RoomInstance.rect (pinned s)
               ++ delete i (map RoomInstance.rect (placed s)) ++ free s); auto.
    + unfold all_rects.
      rewrite (delete_Permutation (map RoomInstance.rect (placed s)) i (RoomInstance.rect r))
        at 1 by (rewrite list_lookup_fmap, Hi; reflexivity).
      solve_Permutation.
    + unfold all_rects. cbn.
      assert (Hp : map RoomInstance.rect
                     (<[i:={| RoomInstance.id := RoomInstance.id r;
                              RoomInstance.type := RoomInstance.type r;
                              RoomInstance.rect := carve (RoomInstance.rect r) size;
                              RoomInstance.floor := RoomInstance.floor r |}]> (placed s))
                   ≡ₚ carve (RoomInstance.rect r) size
                      :: delete i (map RoomInstance.rect (placed s))).
      { rewrite list_fmap_insert. cbn.
        rewrite (delete_Permutation (<[i:=_]> _) i (carve (RoomInstance.rect r) size)).
        - rewrite delete_insert_same. reflexivity.
        - apply list_lookup_insert_eq. rewrite length_map.
          eapply lookup_lt_Some, Hi. }
      rewrite Hp. solve_Permutation.
Qed.

Lemma Forall_via_map {A B} (f : A → B) (P : B → Prop) (l1 l2 : list A) :
  map f l1 = map f l2 → Forall (fun a => P (f a)) l2 → Forall (fun a => P (f a)) l1.
Proof.
  intros Heq H. apply (Forall_fmap f P). change (Forall P (map f l1)). rewrite Heq.
  apply (Forall_fmap f P), H.
Qed.

Lemma shrink_step s :
  pinned (shrink policy s) = pinned s ∧
  map RoomInstance.type (placed (shrink policy s)) = map RoomInstance.type (placed s) ∧
  map RoomInstance.floor (placed (shrink policy s)) = map RoomInstance.floor (placed s) ∧
  (separated (all_rects s) → separated (all_rects (shrink policy s))).
Proof.
  unfold shrink.
  destruct (largest [] (placed s)) as [i|]; [|cbn; auto].
  pose proof (shrink_room_step i s) as (Hp1 & _ & Ht1 & Hf1 & Hs1).
  destruct (largest [i] (placed s)) as [j|].
  - pose proof (shrink_room_step j (shrink_room policy i s)) as (Hp2 & _ & Ht2 & Hf2 & Hs2).
    cbn. refine (conj _ (conj _ (conj _ _))); [congruence..|].
    intros H. apply Hs2, Hs1, H.
  - cbn. auto.
Qed.

Lemma solver_evolves_refl P s : solver_evolves P [] s s.
Proof. unfold solver_evolves. cbn. rewrite !app_nil_r. repeat split; auto. Qed.

Lemma solver_evolves_trans P ps qs s1 s2 s3 :
  solver_evolves P ps s1 s2 → solver_evolves P qs s2 s3 →
  solver_evolves P (ps ++ qs) s1 s3.
Proof.
  unfold solver_evolves. intros (Hp1 & Ht1 & Hf1 & Hs1) (Hp2 & Ht2 & Hf2 & Hs2).
  rewrite Hp2, Hp1, Ht2, Ht1, map_app, app_assoc. repeat split; auto.
Qed.

Lemma place_or_retry_step floor p s s' :
  place_or_retry policy floor p s = Ok s' →
  solver_evolves (fun k => k = floor) [ p ] s s'.
Proof.
  unfold place_or_retry.
  destruct (Qltb 0 (psize p).1) eqn:Hw; [|cbn; discriminate].
  destruct (Qltb 0 (psize p).2) eqn:Hl; [|cbn; discriminate]. cbn [andb negb].
  apply Qltb_lt in Hw, Hl.
  destruct (place policy floor p s) as [s1|] eqn:Hplace.
  - intros [= <-].
    destruct (place_step floor p s s1 Hw Hl Hplace)
      as (Hp & _ & (room & Hroom & Htype & Hfloor) & Hsep).
    unfold solver_evolves. rewrite Hp, Hroom, map_app. cbn. rewrite Htype.
    repeat split; auto. intros H. apply Forall_app. split; [exact H|].
    constructor; [exact Hfloor|constructor].
  - destruct (retried s); [discriminate|].
    destruct (place policy floor p (shrink policy s)) as [s2|] eqn:Hplace2; [|discriminate].
    intros [= <-].
    destruct (place_step floor p _ s2 Hw Hl Hplace2)
      as (Hp & _ & (room & Hroom & Htype & Hfloor) & Hsep).
    destruct (shrink_step s) as (Hp' & Ht' & Hf' & Hsep').
    unfold solver_evolves. rewrite Hp, Hp', Hroom, map_app, Ht'. cbn. rewrite Htype.
    repeat split; auto. intros H. apply Forall_app. split.
    + exact (Forall_via_map RoomInstance.floor (fun k => k = floor) _ _ Hf' H).
    + constructor; [exact Hfloor|constructor].
Qed.

Lemma foldM_place floor ps s s' :
  foldM (place_or_retry policy floor) ps s = Ok s' →
  solver_evolves (fun k => k = floor) ps s s'.
Proof.
  revert s. induction ps as [|p ps IH]; cbn; intros s H.
  - injection H as <-. apply solver_evolves_refl.
  - destruct (place_or_retry policy floor p s) as [s1|e] eqn:Hstep; [|discriminate].
    cbn in H. apply place_or_retry_step in Hstep. apply IH in H.
    apply (solver_evolves_trans _ [p] ps _ _ _ Hstep H).
Qed.

Lemma insert_ordered_perm p l : insert_ordered p l ≡ₚ p :: l.
Proof.
  induction l as [|q l IH]; cbn; [reflexivity|].
  destruct (precedes p q); [reflexivity|]. rewrite IH. apply Permutation_swap.
Qed.

Lemma order_perm ps : order ps ≡ₚ ps.
Proof.
  unfold order. rewrite <- (app_nil_r ps) at 2. generalize (@nil Placeholder) as acc.
  induction ps as [|p ps IH]; intros acc; cbn; [reflexivity|].
  rewrite IH, insert_ordered_perm. solve_Permutation.
Qed.


Lemma solve_step floor ps s s' :
  solve policy floor ps s = Ok s' →
  solver_evolves (fun k => k = floor) (order ps) s s'.
Proof. apply foldM_place. Qed.

(** *** Rooms once placed keep their corner *)

Lemma same_corner_within_refl r : same_corner_within r r.
Proof. unfold same_corner_within. repeat split; apply Qle_refl. Qed.

Lemma same_corner_within_trans a b c :
  same_corner_within a b → same_corner_within b c → same_corner_within a c.
Proof.
  unfold same_corner_within. intros (Hx & Hy & Hw & Hl) (Hx' & Hy' & Hw' & Hl').
  refine (conj _ (conj _ (conj _ _))); [congruence|congruence|..].
  - eapply Qle_trans; eauto.
  - eapply Qle_trans; eauto.
Qed.

Lemma settled_refl s : settled s s.
Proof. intros i room Hi. exists room. split; [exact Hi|apply same_corner_within_refl]. Qed.

Lemma settled_trans s1 s2 s3 : settled s1 s2 → settled s2 s3 → settled s1 s3.
Proof.
  intros H12 H23 i room Hi.
  destruct (H12 i room Hi) as (room2 & Hi2 & Hw2).
  destruct (H23 i room2 Hi2) as (room3 & Hi3 & Hw3).
  exists room3. split; [exact Hi3|]. eapply same_corner_within_trans; eauto.
Qed.

Lemma place_settled floor p s s' : place policy floor p s = Some s' → settled s s'.
Proof.
  unfold place.
  destruct (select policy (free s) (pinned s ++ placed s) p) as [c|]; [|discriminate].
  cbn. intros [= <-] i room Hi. exists room.
  split; [cbn; apply lookup_app_l_Some, Hi|apply same_corner_within_refl].
Qed.

(** The back-track leaves a room where it is and makes it no larger. *)
Lemma shrink_room_settled i s : settled s (shrink_room policy i s).
Proof.
  unfold shrink_room. destruct (placed s !! i) as [r|] eqn:Hi; [|apply settled_refl].
  set (size := minimum_size policy (RoomInstance.type r)).
  destruct (has_area (carve (RoomInstance.rect r) size)); [|apply settled_refl].
  destruct (fits (RoomInstance.rect r) size) eqn:Hfit; [|apply settled_refl].
  cbn [andb]. intros k room Hk. cbn [placed].
  destruct (decide (i = k)) as [<-|Hne].
  - rewrite Hi in Hk. injection Hk as <-. eexists. split.
    + apply list_lookup_insert_eq. eapply lookup_lt_Some, Hi.
    + apply fits_true in Hfit as [Hw Hl]. cbn. repeat split; assumption.
  - exists room. split; [|apply same_corner_within_refl].
    rewrite list_lookup_insert_ne by exact Hne. exact Hk.
Qed.

Lemma shrink_settled s : settled s (shrink policy s).
Proof.
  assert (Hwrap : ∀ s0, settled s s0 →
            settled s {| free := free s0; pinned := pinned s0;
                         placed := placed s0; retried := true |})
    by (intros s0 H; exact H).
  unfold shrink. apply Hwrap.
  destruct (largest [] (placed s)) as [i|]; [|apply settled_refl].
  destruct (largest [i] (placed s)) as [j|]; [|apply shrink_room_settled].
  eapply settled_trans; apply shrink_room_settled.
Qed.

Lemma place_or_retry_settled floor p s s' :
  place_or_retry policy floor p s = Ok s' → settled s s'.
Proof.
  unfold place_or_retry.
  destruct (negb (Qltb 0 (psize p).1 && Qltb 0 (psize p).2)); [discriminate|].
  destruct (place policy floor p s) as [s1|] eqn:Hplace.
  - intros [= <-]. eapply place_settled, Hplace.
  - destruct (retried s); [discriminate|].
    destruct (place policy floor p (shrink policy s)) as [s2|] eqn:Hplace2; [|discriminate].
    intros [= <-]. eapply settled_trans; [apply shrink_settled|].
    eapply place_settled, Hplace2.
Qed.

Lemma solve_settled floor ps s s' : solve policy floor ps s = Ok s' → settled s s'.
Proof.
  unfold solve. generalize (order ps) as l. intros l. revert s.
  induction l as [|p l IH]; cbn; intros s H.
  - injection H as <-. apply settled_refl.
  - destruct (place_or_retry policy floor p s) as [s1|e] eqn:Hstep; [|discriminate].
    cbn in H. eapply settled_trans; [eapply place_or_retry_settled, Hstep|apply IH, H].
Qed.

Lemma Forall_map_eq {A B C} (f : A → C) (g : B → C) (P : C → Prop) l1 l2 :
  map f l1 = map g l2 → Forall (fun b => P (g b)) l2 → Forall (fun a => P (f a)) l1.
Proof.
  intros Heq H. apply (Forall_fmap f P). change (Forall P (map f l1)). rewrite Heq.
  apply (Forall_fmap g P), H.
Qed.

Lemma install_step floor room s s' :
  install floor room s = Ok s' →
  (∃ room', pinned s' = pinned s ++ [ room' ] ∧
            RoomInstance.rect room' = RoomInstance.rect room ∧
            RoomInstance.type room' = RoomInstance.type room ∧
            RoomInstance.floor room' = floor) ∧
  placed s' = placed s ∧
  (separated (all_rects s) → separated (all_rects s')).
Proof.
  unfold install. destruct (has_area (RoomInstance.rect room)) eqn:Harea; [|discriminate].
  cbn [negb].
  destruct (list_find _ (free s)) as [[i f]|] eqn:Hfind; [|discriminate].
  intros [= <-]. cbn.
  apply list_find_Some in Hfind as (Hlook & Hin & _).
  destruct (subtract_parts f _ Harea Hin) as [Hparts Hsep].
  split; [eexists; eauto|]. split; [reflexivity|].
  apply separated_trade with
    (f := f) (parts := RoomInstance.rect room :: subtract f (RoomInstance.rect room))
    (rest := map RoomInstance.rect (pinned s) ++ map RoomInstance.rect (placed s)
             ++ delete i (free s)); auto.
  - unfold all_rects. rewrite (delete_Permutation _ _ _ Hlook) at 1. solve_Permutation.
  - unfold all_rects. cbn. rewrite map_app. cbn. solve_Permutation.
Qed.

Lemma foldM_install floor recorded s s' :
  foldM (install floor) recorded s = Ok s' →
  map RoomInstance.rect (pinned s')
  = map RoomInstance.rect (pinned s) ++ map RoomInstance.rect recorded ∧
  map RoomInstance.type (pinned s')
  = map RoomInstance.type (pinned s) ++ map RoomInstance.type recorded ∧
  (Forall (fun room => RoomInstance.floor room = floor) (pinned s) →
   Forall (fun room => RoomInstance.floor room = floor) (pinned s')) ∧
  placed s' = placed s ∧
  (separated (all_rects s) → separated (all_rects s')).
Proof.
  revert s. induction recorded as [|room recorded IH]; cbn; intros s H.
  - injection H as <-. rewrite !app_nil_r. auto.
  - destruct (install floor room s) as [s1|e] eqn:Hstep; [|discriminate]. cbn in H.
    apply install_step in Hstep as ((room' & Hp & Hr & Ht & Hf) & Hpl & Hs).
    apply IH in H as (Hr' & Ht' & Hf' & Hpl' & Hs').
    rewrite Hr', Ht', Hpl', Hp, !map_app, <- !app_assoc. cbn. rewrite Hr, Ht, Hpl.
    repeat split; auto. intros H. apply Hf'. rewrite Hp. apply Forall_app. split; [exact H|].
    constructor; [exact Hf|constructor].
Qed.

Lemma separated_rooms s : separated (all_rects s) → separated (map RoomInstance.rect (rooms_of s)).
Proof.
  unfold all_rects, rooms_of. rewrite map_app, app_assoc. intros H.
  apply separated_app in H. tauto.
Qed.

Lemma stairs_rects_app l1 l2 :
  stairs_rects (l1 ++ l2) = stairs_rects l1 ++ stairs_rects l2.
Proof. unfold stairs_rects. rewrite filter_app, map_app. reflexivity. Qed.

Lemma stairs_rects_all l :
  Forall (fun t => t = stairs) (map RoomInstance.type l) →
  stairs_rects l = map RoomInstance.rect l.
Proof.
  unfold stairs_rects. induction l as [|r l IH]; intros H; [reflexivity|].
  cbn in H. apply Forall_cons in H as [Hr H]. rewrite filter_cons_True by exact Hr.
  cbn. f_equal. apply IH, H.
Qed.

Lemma stairs_rects_none l :
  Forall (fun t => t ≠ stairs) (map RoomInstance.type l) → stairs_rects l = [].
Proof.
  unfold stairs_rects. induction l as [|r l IH]; intros H; [reflexivity|].
  cbn in H. apply Forall_cons in H as [Hr H]. rewrite filter_cons_False by exact Hr.
  apply IH, H.
Qed.

Lemma is_stairs_true t : is_stairs t = true ↔ t = stairs.
Proof. unfold is_stairs. apply bool_decide_eq_true. Qed.

Lemma is_stairs_false t : is_stairs t = false ↔ t ≠ stairs.
Proof. unfold is_stairs. apply bool_decide_eq_false. Qed.

Lemma order_stairs ps :
  Forall (fun t => t = stairs) (map ptype (order (stairs_of ps))).
Proof.
  apply Forall_fmap. rewrite order_perm. unfold stairs_of.
  apply Forall_forall. intros p Hp. apply list_elem_of_filter in Hp as [Hp _].
  apply is_stairs_true, Hp.
Qed.

Lemma order_others ps :
  Forall (fun t => t ≠ stairs) (map ptype (order (others_of ps))).
Proof.
  apply Forall_fmap. rewrite order_perm. unfold others_of.
  apply Forall_forall. intros p Hp. apply list_elem_of_filter in Hp as [Hp _].
  apply is_stairs_false, Hp.
Qed.

Lemma start_separated footprint : separated (all_rects (start footprint)).
Proof. cbn. split; [constructor|exact I]. Qed.

(** The stairs of a floor whose rooms are the stairs followed by the
    other rooms. *)
Lemma stairs_rects_prefix l (ts us : list RoomType) :
  map RoomInstance.type l = ts ++ us →
  Forall (fun t => t = stairs) ts → Forall (fun t => t ≠ stairs) us →
  stairs_rects l = map RoomInstance.rect (take (length ts) l).
Proof.
  intros Hl Hts Hus. rewrite <- (take_drop (length ts) l) at 1.
  rewrite stairs_rects_app, stairs_rects_all, stairs_rects_none.
  - apply app_nil_r.
  - change (Forall (fun t => t ≠ stairs) (RoomInstance.type <$> drop (length ts) l)).
    rewrite fmap_drop. change (RoomInstance.type <$> l) with (map RoomInstance.type l).
    rewrite Hl, drop_app_length. exact Hus.
  - change (Forall (fun t => t = stairs) (RoomInstance.type <$> take (length ts) l)).
    rewrite fmap_take. change (RoomInstance.type <$> l) with (map RoomInstance.type l).
    rewrite Hl, take_app_length. exact Hts.
Qed.

(** Floor 1: the rooms do not overlap, one room was recorded for each
    stairs placeholder, and each staircase of the floor has the corner of
    the recorded one and is not larger. *)
Lemma solve_first_spec footprint ps recorded s :
  solve_first policy footprint ps = Ok (recorded, s) →
  separated (map RoomInstance.rect (rooms_of s)) ∧
  map RoomInstance.type recorded = map ptype (order (stairs_of ps)) ∧
  Forall2 same_corner_within (map RoomInstance.rect recorded) (stairs_rects (rooms_of s)).
Proof.
  unfold solve_first. destruct (check_footprint footprint) as [[]|e]; [|discriminate].
  cbn. destruct (solve policy 1 (stairs_of ps) (start footprint)) as [s1|e] eqn:H1;
    [|discriminate]. cbn.
  destruct (solve policy 1 (others_of ps) s1) as [s2|e] eqn:H2; [|discriminate]. cbn.
  intros [= <- <-].
  pose proof (solve_settled _ _ _ _ H2) as Hkeep.
  apply solve_step in H1 as (Hp1 & Ht1 & _ & Hs1), H2 as (Hp2 & Ht2 & _ & Hs2).
  cbn in Hp1, Ht1.
  split; [apply separated_rooms, Hs2, Hs1, start_separated|].
  split; [exact Ht1|].
  assert (Hlen : (length (placed s1) ≤ length (placed s2))%nat).
  { apply (f_equal length) in Ht2. rewrite length_app, !length_map in Ht2. lia. }
  unfold rooms_of. rewrite Hp2, Hp1. cbn [app].
  rewrite (stairs_rects_prefix (placed s2) _ _ Ht2)
    by (rewrite ?Ht1; apply order_stairs || apply order_others).
  rewrite length_map.
  apply Forall2_fmap, Forall2_same_length_lookup_2.
  - rewrite length_take. lia.
  - intros i room room' Hi Hi'.
    destruct (Hkeep i room Hi) as (room2 & Hi2 & Hw).
    rewrite lookup_take_lt in Hi' by (eapply lookup_lt_Some, Hi).
    rewrite Hi2 in Hi'. injection Hi' as <-. exact Hw.
Qed.

(** A later floor: the rooms do not overlap, and the stairs have the
    rectangles recorded on floor 1. *)
Lemma solve_later_spec floor footprint recorded ps s :
  Forall (fun t => t = stairs) (map RoomInstance.type recorded) →
  solve_later policy floor footprint recorded ps = Ok s →
  separated (map RoomInstance.rect (rooms_of s)) ∧
  stairs_rects (rooms_of s) = map RoomInstance.rect recorded.
Proof.
  intros Hrec. unfold solve_later.
  destruct (check_footprint footprint) as [[]|e]; [|discriminate]. cbn.
  destruct (foldM (install floor) recorded (start footprint)) as [s1|e] eqn:H1;
    [|discriminate]. cbn. intros H2.
  apply foldM_install in H1 as (Hr1 & Ht1 & _ & Hpl1 & Hs1).
  apply solve_step in H2 as (Hp2 & Ht2 & _ & Hs2).
  cbn in Hr1, Ht1, Hpl1. rewrite Hpl1 in Ht2. cbn in Ht2.
  split; [apply separated_rooms, Hs2, Hs1, start_separated|].
  unfold rooms_of. rewrite stairs_rects_app.
  rewrite (stairs_rects_all (pinned s)) by (rewrite Hp2, Ht1; exact Hrec).
  rewrite (stairs_rects_none (placed s)) by (rewrite Ht2; apply order_others).
  rewrite app_nil_r, Hp2. exact Hr1.
Qed.

Lemma mapM_Ok {A B} (f : A → Result B) (l : list A) (bs : list B) :
  mapM f l = Ok bs → Forall2 (fun a b => f a = Ok b) l bs.
Proof.
  revert bs. induction l as [|a l IH]; cbn; intros bs H.
  - injection H as <-. constructor.
  - destruct (f a) as [b|e] eqn:Hb; [|discriminate]. cbn in H.
    destruct (mapM f l) as [bs'|e]; [|discriminate]. cbn in H.
    injection H as <-. constructor; auto.
Qed.

(** All the floors the coordinator lays out: on each the rooms do not
    overlap; on every floor but floor 1 the stairs have the recorded
    rectangles; on every floor they have the corners of the recorded
    rectangles and are not larger. *)
Lemma coordinate_spec footprints ps layouts :
  coordinate policy footprints ps = Ok layouts →
  length layouts = length footprints ∧
  Forall (fun layout => separated (map RoomInstance.rect layout.2)) layouts ∧
  ∃ recorded,
    Forall (fun layout =>
              (layout.1.1 ≠ 1%nat → stairs_rects layout.2 = recorded) ∧
              Forall2 same_corner_within recorded (stairs_rects layout.2)) layouts.
Proof.
  unfold coordinate. destruct footprints as [|footprint more].
  - intros [= <-]. split; [reflexivity|]. split; [constructor|]. exists []. constructor.
  - destruct (solve_first policy footprint ps) as [[recorded first]|e] eqn:H1;
      [|discriminate]. cbn.
    destruct (mapM _ (imap pair more)) as [later|e] eqn:H2; [|discriminate]. cbn.
    intros [= <-].
    apply solve_first_spec in H1 as (Hsep & Htp & Hst).
    apply mapM_Ok in H2.
    assert (Hlater : ∀ layout, layout ∈ later →
              separated (map RoomInstance.rect layout.2) ∧
              stairs_rects layout.2 = map RoomInstance.rect recorded).
    { intros layout Hin. apply list_elem_of_lookup in Hin as [i Hi].
      destruct (Forall2_lookup_r _ _ _ _ _ H2 Hi) as ([k fp] & _ & Hk).
      cbn beta iota in Hk.
      destruct (solve_later policy (S (S k)) fp recorded ps) as [s|e] eqn:Hs;
        [|discriminate].
      cbn in Hk. injection Hk as <-. cbn.
      apply solve_later_spec in Hs; [exact Hs|].
      rewrite Htp. apply order_stairs. }
    split.
    { cbn. f_equal. apply Forall2_length in H2. rewrite length_imap in H2. auto. }
    split.
    { constructor; [exact Hsep|]. apply Forall_forall. intros layout Hin.
      apply Hlater, Hin. }
    exists (map RoomInstance.rect recorded). constructor.
    { split; [intros Hne; cbn in Hne; congruence|exact Hst]. }
    apply Forall_forall. intros layout Hin.
    destruct (Hlater layout Hin) as [_ ->]. split; [reflexivity|].
    apply Forall_Forall2_diag, Forall_forall. intros r _. apply same_corner_within_refl.
Qed.

(** The floors are numbered from 1, in order. *)
Lemma coordinate_numbers footprints ps layouts :
  coordinate policy footprints ps = Ok layouts →
  map (fun layout : nat * (Q * Q) * list RoomInstance.t => layout.1.1) layouts
  = seq 1 (length footprints).
Proof.
  unfold coordinate. destruct footprints as [|footprint more].
  - intros [= <-]. reflexivity.
  - destruct (solve_first policy footprint ps) as [[recorded first]|e]; [|discriminate]. cbn.
    destruct (mapM _ (imap pair more)) as [later|e] eqn:H2; [|discriminate]. cbn.
    intros [= <-]. cbn. f_equal. apply mapM_Ok in H2.
    pose proof (Forall2_length _ _ _ H2) as Hlen. rewrite length_imap in Hlen.
    apply list_eq. intros i. rewrite list_lookup_fmap.
    destruct (later !! i) as [layout|] eqn:Hi; cbn.
    + destruct (Forall2_lookup_r _ _ _ _ _ H2 Hi) as ([k fp] & Hk1 & Hk).
      rewrite list_lookup_imap in Hk1.
      destruct (more !! i) as [fp'|] eqn:Hfp; [|discriminate]. cbn in Hk1.
      injection Hk1 as <- <-. cbn beta iota in Hk.
      destruct (solve_later policy (S (S i)) fp' recorded ps) as [s|e]; [|discriminate].
      cbn in Hk. injection Hk as <-. cbn.
      rewrite lookup_seq_lt by (eapply lookup_lt_Some, Hfp). reflexivity.
    + apply lookup_ge_None in Hi. symmetry. apply lookup_seq_ge. lia.
Qed.

End SolverFacts.

(** *** The generator *)

Lemma generate_Ok policy req building :
  generate policy req = Ok building →
  ∃ requests layouts,
    validate req = Ok requests ∧
    coordinate policy
      (replicate (Z.to_nat (Request.floors req))
                 (inject_Z (Request.width req), inject_Z (Request.length req)))
      (placeholders policy (Request.style req)
                    (inject_Z (Request.width req), inject_Z (Request.length req)) requests)
    = Ok layouts ∧
    Building.floors building = map (finalize policy (Request.include_windows req)) layouts ∧
    Building.metrics building = building_metrics (Building.floors building).
Proof.
  unfold generate. destruct (validate req) as [requests|e]; [|discriminate]. cbn.
  match goal with |- context [coordinate ?p ?f ?ps] =>
    destruct (coordinate p f ps) as [layouts|e] eqn:Hc; [|discriminate] end.
  cbn. intros [= <-]. exists requests, layouts. auto.
Qed.

Lemma finalize_rooms policy include_windows layout :
  Floor.rooms (finalize policy include_windows layout) = layout.2.
Proof. destruct layout as [[number footprint] rooms]. reflexivity. Qed.

(** C1.  On every floor of a generated building, any two distinct rooms
    have rectangles that do not overlap (they may share an edge). *)
Theorem rooms_do_not_overlap (policy : Policy) (req : Request.t) (building : Building.t) :
  generate policy req = Ok building →
  ∀ floor, floor ∈ Building.floors building →
  ∀ (i j : nat) a b,
    i ≠ j → Floor.rooms floor !! i = Some a → Floor.rooms floor !! j = Some b →
    overlaps (RoomInstance.rect a) (RoomInstance.rect b) = false.
Proof.
  intros Hgen floor Hfloor i j a b Hne Ha Hb.
  apply generate_Ok in Hgen as (requests & layouts & _ & Hc & Hfl & _).
  rewrite Hfl in Hfloor. apply list_elem_of_fmap in Hfloor as (layout & -> & Hin).
  rewrite finalize_rooms in Ha, Hb.
  apply coordinate_spec in Hc as (_ & Hall & _).
  rewrite Forall_forall in Hall. pose proof (Hall layout Hin) as Hsep.
  apply (separated_lookup _ i j _ _ Hsep Hne); rewrite list_lookup_fmap.
  - rewrite Ha. reflexivity.
  - rewrite Hb. reflexivity.
Qed.

Lemma rooms_do_not_overlap_witness :
  ∃ floor a b,
    Building.floors building_a = [ floor ] ∧ length (Floor.rooms floor) = 5%nat ∧
    Floor.rooms floor !! 0%nat = Some a ∧ Floor.rooms floor !! 1%nat = Some b ∧
    overlaps (RoomInstance.rect a) (RoomInstance.rect b) = false.
Proof.
  eexists _, _, _.
  split; [vm_compute; reflexivity|]. split; [reflexivity|].
  split; [reflexivity|]. split; [reflexivity|].
  eapply (rooms_do_not_overlap sample_policy scenario_a building_a)
    with (i := 0%nat) (j := 1%nat).
  - vm_compute. reflexivity.
  - vm_compute. left.
  - discriminate.
  - reflexivity.
  - reflexivity.
Defined.

Lemma finalize_number policy include_windows layout :
  Floor.floor_number (finalize policy include_windows layout) = layout.1.1.
Proof. destruct layout as [[number footprint] rooms]. reflexivity. Qed.

(** The floors of a generated building are numbered from 1, in order:
    floor 1 is the first, and no other floor has that number. *)
Lemma floors_are_numbered policy req building :
  generate policy req = Ok building →
  map Floor.floor_number (Building.floors building)
  = seq 1 (Z.to_nat (Request.floors req)).
Proof.
  intros Hgen. apply generate_Ok in Hgen as (requests & layouts & _ & Hc & -> & _).
  apply coordinate_numbers in Hc. rewrite length_replicate in Hc. rewrite <- Hc.
  rewrite map_map. apply map_ext. intros layout. apply finalize_number.
Qed.




(** Scenario C: the stairs of both floors are coordinate-identical. *)
Example scenario_c_stairs :
  map (fun floor => stairs_rects (Floor.rooms floor)) (Building.floors building_c)
  = [ [ {| Rect.x := 0; Rect.y := 0; Rect.width := 2; Rect.length := 3 |} ];
      [ {| Rect.x := 0; Rect.y := 0; Rect.width := 2; Rect.length := 3 |} ] ].
Proof. vm_compute. reflexivity. Qed.


(** *** Metrics *)

(** Scenario A: five rooms, an efficiency above 0. *)
Example scenario_a_metrics :
  map (fun floor => (FloorMetrics.room_count (Floor.metrics floor),
                     Qred (FloorMetrics.efficiency (Floor.metrics floor)),
                     Qred (FloorMetrics.circulation_area (Floor.metrics floor))))
      (Building.floors building_a)
  = [ (5%nat, 95 # 2, 63) ].
Proof. vm_compute. reflexivity. Qed.

End EngineFacts.

(** ** The client on the engine's responses *)

Module EndToEnd.

Import Client Engine.
Local Open Scope string_scope.

Lemma describe_truthy e : truthy (describe e) = true.
Proof. destruct e; reflexivity. Qed.

(** A building that is produced is whole: it has every requested floor. *)
Lemma generate_complete policy req building :
  generate policy req = Ok building →
  length (Building.floors building) = Z.to_nat (Request.floors req).
Proof.
  intros Hgen.
  apply EngineFacts.generate_Ok in Hgen as (requests & layouts & _ & Hc & Hfl & _).
  apply EngineFacts.coordinate_spec in Hc as (Hlen & _).
  rewrite Hfl, length_map, Hlen, length_replicate. reflexivity.
Qed.

(** C3.  Whatever the kind of failure, the response has [success: false],
    the error string and neither floors nor metrics, and a response with
    floors has all of them.  The client stores a response only when its
    [success] is truthy; on a response whose [success] is not, it leaves
    its state as it was and reports the response's error string (a fixed
    text when that is missing or empty). *)
Theorem failure_is_atomic (policy : Policy) (st : State) :
  (∀ e,
     Response.success (respond (Err e)) = JBool false ∧
     Response.floors (respond (Err e)) = None ∧
     Response.metrics (respond (Err e)) = None ∧
     Response.error (respond (Err e)) = Some (describe e) ∧ describe e ≠ "") ∧
  (∀ req floors,
     Response.floors (respond (generate policy req)) = Some floors →
     Response.success (respond (generate policy req)) = JBool true ∧
     length floors = Z.to_nat (Request.floors req)) ∧
  (∀ outcome,
     floorPlanData (generateFloorPlan outcome st).1 ≠ floorPlanData st →
     ∃ data, outcome = Json data ∧ truthy (Response.success data) = true ∧
             floorPlanData (generateFloorPlan outcome st).1 = Some data) ∧
  (∀ data,
     truthy (Response.success data) = false →
     generateFloorPlan (Json data) st
     = (st, Some (Msg (jor_default (Response.error data) "Unknown error from backend")))) ∧
  (∀ e, generateFloorPlan (Json (respond (Err e))) st = (st, Some (Msg (describe e)))).
Proof.
  refine (conj _ (conj _ (conj _ (conj _ _)))).
  - intros e. repeat split. destruct e; discriminate.
  - intros req floors. destruct (generate policy req) as [building|e] eqn:Hgen; cbn;
      [|discriminate].
    intros [= <-]. split; [reflexivity|].
    rewrite length_map. apply (generate_complete policy req building Hgen).
  - intros outcome. apply ClientFacts.generateFloorPlan_assigns.
  - intros data. apply ClientFacts.generateFloorPlan_refused.
  - intros e. rewrite ClientFacts.generateFloorPlan_refused by reflexivity.
    cbn [respond Response.error jor_default]. unfold jor. rewrite describe_truthy.
    reflexivity.
Qed.

Lemma failure_is_atomic_witness :
  respond (generate sample_policy scenario_b)
  = {| Response.success := JBool false; Response.floors := None;
       Response.metrics := None;
       Response.error := Some "LayoutInfeasible: bedroom on floor 1" |} ∧
  generateFloorPlan (Json (respond (generate sample_policy scenario_b)))
                    (initial true true true)
  = (initial true true true, Some (Msg "LayoutInfeasible: bedroom on floor 1")).
Proof.
  destruct (failure_is_atomic sample_policy (initial true true true))
    as (_ & _ & _ & Hrefused & _).
  split; [vm_compute; reflexivity|].
  rewrite (Hrefused (respond (generate sample_policy scenario_b)))
    by (vm_compute; reflexivity).
  vm_compute. reflexivity.
Defined.

End EndToEnd.

(** ** More of the client's behaviour *)

Module ClientBehaviour.

Import Client.
Local Open Scope string_scope.
Local Open Scope list_scope.
Local Open Scope Z_scope.

(** *** The request *)

Lemma jor_usable {A} `{Truthy A} (a d : A) : truthy d = true → truthy (jor a d) = true.
Proof. unfold jor. intros Hd. destruct (truthy a) eqn:Ha; [exact Ha|exact Hd]. Qed.

Lemma rooms_of_rows (f : Form) :
  Specs.rooms (getInputSpecifications f)
  = match room_inputs f with
    | [] => default_rooms
    | rows => map request_of_row rows
    end.
Proof. cbn. destruct (room_inputs f); reflexivity. Qed.

(** X1.  Whatever the form holds, the request carries a width, a length
    and a number of floors that are numbers other than zero (never NaN),
    a room list that is not empty and whose counts are numbers other than
    zero, and a style that is not empty. *)
Theorem getInputSpecifications_usable (f : Form) :
  truthy (Specs.width (getInputSpecifications f)) = true ∧
  truthy (Specs.length (getInputSpecifications f)) = true ∧
  truthy (Specs.floors (getInputSpecifications f)) = true ∧
  Specs.rooms (getInputSpecifications f) ≠ [] ∧
  Forall (fun req => truthy (req_count req) = true) (Specs.rooms (getInputSpecifications f)) ∧
  Specs.style (getInputSpecifications f) ≠ "".
Proof.
  refine (conj _ (conj _ (conj _ (conj _ (conj _ _))))).
  - apply jor_usable. reflexivity.
  - apply jor_usable. reflexivity.
  - apply jor_usable. reflexivity.
  - rewrite rooms_of_rows. destruct (room_inputs f); discriminate.
  - rewrite rooms_of_rows. destruct (room_inputs f) as [|row rows].
    + repeat constructor.
    + apply Forall_fmap, Forall_forall. intros input _. apply jor_usable. reflexivity.
  - cbn. intros Hs. pose proof (jor_usable (style_value f) "modern" eq_refl) as Ht.
    rewrite Hs in Ht. discriminate.
Qed.

(** X2.  After [addRoomInput] the request lists one room per row that was
    there, in order, then one bedroom; the default rooms are gone.
    Removing the row just added gives the form back. *)
Theorem addRoomInput_request (f : Form) :
  Specs.rooms (getInputSpecifications (addRoomInput f))
  = map request_of_row (room_inputs f)
    ++ [ {| req_type := "bedroom"; req_count := ofZ 1 |} ] ∧
  removeRoom (length (room_inputs f)) (addRoomInput f) = f.
Proof.
  split.
  - rewrite rooms_of_rows. cbn [addRoomInput room_inputs].
    destruct (room_inputs f ++ _) as [|row rows] eqn:Hrows.
    + destruct (room_inputs f); discriminate.
    + rewrite <- Hrows, map_app. reflexivity.
  - destruct f as [w l fl rows s fu wi]. unfold removeRoom, addRoomInput. cbn.
    f_equal. rewrite delete_take_drop, take_app_length.
    rewrite drop_ge by (rewrite length_app; cbn; lia). apply app_nil_r.
Qed.

Example addRoomInput_blank :
  Specs.rooms (getInputSpecifications blank_form)
  = [ {| req_type := "bedroom"; req_count := ofZ 2 |};
      {| req_type := "living"; req_count := ofZ 1 |} ] ∧
  Specs.rooms (getInputSpecifications (addRoomInput blank_form))
  = [ {| req_type := "bedroom"; req_count := ofZ 1 |} ].
Proof. split; reflexivity. Qed.

(** *** Rendering and the instance's fields *)

Lemma finish_rest st (r : Result State) :
  (∀ st', r = Ok st' → ∃ d, st' = set_display d st) →
  let st' := (finish st r).1 in
  currentFloor st' = currentFloor st ∧ totalFloors st' = totalFloors st ∧
  floorPlanData st' = floorPlanData st ∧ chart st' = chart st ∧
  metricsDiv st' = metricsDiv st.
Proof.
  intros H. destruct r as [st1|e]; cbn; [|repeat split].
  destruct (H st1 eq_refl) as [d ->]. repeat split.
Qed.

Lemma showErrorMessage_display message st st' :
  showErrorMessage message st = Ok st' → ∃ d, st' = set_display d st.
Proof.
  unfold showErrorMessage. destruct (svgContainer st); [|discriminate].
  intros [= <-]. eauto.
Qed.

(** X3.  [renderFloorPlan] changes nothing but what stands in
    [svg-container]: the current floor, the number of floors, the stored
    response, the chart and the metrics panel are as before, whether it
    draws, shows an error or throws. *)
Theorem renderFloorPlan_only_draws (st : State) :
  let st' := (after (renderFloorPlan st)).1 in
  currentFloor st' = currentFloor st ∧ totalFloors st' = totalFloors st ∧
  floorPlanData st' = floorPlanData st ∧ chart st' = chart st ∧
  metricsDiv st' = metricsDiv st.
Proof.
  unfold renderFloorPlan.
  destruct (floorPlanData st ≫= Response.floors) as [[|fl floors]|]; cbn [after];
    try (apply finish_rest; apply showErrorMessage_display).
  destruct (Z.of_nat (length (fl :: floors)) <=? currentFloor st - 1); cbn [after];
    try (apply finish_rest; apply showErrorMessage_display).
  destruct (svgContainer st); [|repeat split].
  destruct (index (fl :: floors) (currentFloor st - 1)) as [floorData|]; [|repeat split].
  destruct (drawFloor floorData); repeat split.
Qed.

(** X4.  On a page without [svg-container], [renderFloorPlan] leaves the
    state as it is; it throws exactly when it would show an error
    message (no stored floors, or a floor number past the last floor) and
    returns silently otherwise. *)
Theorem renderFloorPlan_without_container (st : State) :
  svgContainer st = None →
  after (renderFloorPlan st)
  = (st, match shown (renderFloorPlan st) with
         | Some _ => Some typeError
         | None => None
         end).
Proof.
  intros Hc. unfold renderFloorPlan, showErrorMessage. rewrite Hc.
  destruct (floorPlanData st ≫= Response.floors) as [[|fl floors]|]; try reflexivity.
  destruct (Z.of_nat (length (fl :: floors)) <=? currentFloor st - 1); reflexivity.
Qed.

Lemma renderFloorPlan_without_container_witness :
  after (renderFloorPlan (initial true false true))
  = (initial true false true, Some typeError) ∧
  after (renderFloorPlan (testRendering (initial true false true)).1)
  = ((testRendering (initial true false true)).1, None).
Proof.
  split.
  - apply (renderFloorPlan_without_container (initial true false true)). reflexivity.
  - apply (renderFloorPlan_without_container (testRendering (initial true false true)).1).
    reflexivity.
Defined.

(** *** What holds of every state the page can be in *)

Lemma consistent_fields st st' :
  currentFloor st' = currentFloor st → totalFloors st' = totalFloors st →
  floorPlanData st' = floorPlanData st → consistent st → consistent st'.
Proof.
  unfold consistent, floors_stored. intros -> -> ->. auto.
Qed.

Lemma consistent_first (st : State) data :
  currentFloor st = 1 → floorPlanData st = Some data →
  totalFloors st = match Response.floors data with
                   | Some floors => Z.of_nat (length floors)
                   | None => 1
                   end →
  truthy (Response.success data) = true → consistent st.
Proof.
  unfold consistent, floors_stored. intros Hc Hd Ht Hs. rewrite Hc, Hd, Ht.
  repeat split; auto; try lia. intros data' [= <-]. exact Hs.
Qed.

Lemma prevFloor_data st : floorPlanData (prevFloor st).1 = floorPlanData st.
Proof.
  unfold prevFloor, updateFloorDisplay. destruct (1 <? currentFloor st); [|reflexivity].
  match goal with |- context [renderFloorPlan ?s] =>
    pose proof (ClientFacts.renderFloorPlan_fields s) as (_ & _ & H) end.
  exact H.
Qed.

Lemma nextFloor_data st : floorPlanData (nextFloor st).1 = floorPlanData st.
Proof.
  unfold nextFloor, updateFloorDisplay.
  destruct (currentFloor st <? totalFloors st); [|reflexivity].
  match goal with |- context [renderFloorPlan ?s] =>
    pose proof (ClientFacts.renderFloorPlan_fields s) as (_ & _ & H) end.
  exact H.
Qed.

Lemma consistent_initial c s m : consistent (initial c s m).
Proof. unfold consistent, floors_stored. cbn. repeat split; try lia. discriminate. Qed.

Lemma consistent_generate outcome st :
  consistent st → consistent (generateFloorPlan outcome st).1.
Proof.
  intros IH. destruct outcome as [e|status|e|data]; try exact IH.
  destruct (truthy (Response.success data)) eqn:Hs.
  - destruct (ClientFacts.generateFloorPlan_taken data st Hs) as (Hc & Ht & Hd).
    apply (consistent_first _ data); auto.
  - rewrite ClientFacts.generateFloorPlan_refused by exact Hs. exact IH.
Qed.

Lemma consistent_test st : consistent (testRendering st).1.
Proof.
  unfold testRendering.
  match goal with |- context [renderFloorPlan ?s] =>
    pose proof (ClientFacts.renderFloorPlan_fields s) as (H1 & H2 & H3);
    destruct (after (renderFloorPlan s)) as [st2 [e|]] end;
    cbn in H1, H2, H3; cbn [fst].
  - apply (consistent_first _ testData); auto.
  - destruct (ClientFacts.updateAnalysis_fields testMetrics st2) as (H1' & H2' & H3').
    apply (consistent_first _ testData); try congruence; try reflexivity.
    rewrite H2', H2. reflexivity.
Qed.

Lemma consistent_prev st : consistent st → consistent (prevFloor st).1.
Proof.
  intros (Hlo & Htot & Hhi & Hsucc).
  destruct (ClientFacts.prevFloor_fields st) as [Hc Ht].
  pose proof (prevFloor_data st) as Hd.
  unfold consistent, floors_stored. rewrite Hc, Ht, Hd.
  fold (floors_stored st). rewrite <- Htot.
  destruct (Z.ltb_spec 1 (currentFloor st)); repeat split; auto; lia.
Qed.

Lemma consistent_next st : consistent st → consistent (nextFloor st).1.
Proof.
  intros (Hlo & Htot & Hhi & Hsucc).
  destruct (ClientFacts.nextFloor_fields st) as [Hc Ht].
  pose proof (nextFloor_data st) as Hd.
  unfold consistent, floors_stored. rewrite Hc, Ht, Hd.
  fold (floors_stored st). rewrite <- Htot.
  destruct (Z.ltb_spec (currentFloor st) (totalFloors st)); repeat split; auto; lia.
Qed.

(** X5.  In every state the constructor and the handlers (generation,
    Test Render, previous floor, next floor) can produce: [currentFloor]
    is at least 1; [totalFloors] is the number of floors of the stored
    response (1 when it has no floors array or nothing is stored);
    [currentFloor] exceeds [totalFloors] only as floor 1 of a response
    with an empty floors array; and a stored response has a truthy
    [success]. *)
Theorem reachable_consistent (st : State) : reachable st → consistent st.
Proof.
  induction 1 as [c s m|outcome st _ IH|st _ IH|st _ IH|st _ IH].
  - apply consistent_initial.
  - apply consistent_generate, IH.
  - apply consistent_test.
  - apply consistent_prev, IH.
  - apply consistent_next, IH.
Qed.

Lemma reachable_consistent_witness :
  consistent (nextFloor (generateFloorPlan (Json testData) (initial true true true)).1).1.
Proof.
  apply reachable_consistent. apply reach_next, reach_generate, reach_initial.
Defined.

(** X6.  In every such state [renderFloorPlan] never answers
    "Invalid floor number", and when it looks a floor up it finds one. *)
Theorem reachable_renders_a_floor (st : State) :
  reachable st →
  shown (renderFloorPlan st) ≠ Some "Invalid floor number" ∧
  (∀ i, read (renderFloorPlan st) = Some i →
        ∃ data floors floorData,
          floorPlanData st = Some data ∧ Response.floors data = Some floors ∧
          index floors i = Some floorData).
Proof.
  intros Hr.
  assert (Hcons : consistent st).
  { induction Hr; auto using consistent_initial, consistent_generate, consistent_test,
      consistent_prev, consistent_next. }
  destruct Hcons as (Hlo & Htot & Hhi & _).
  unfold floors_stored in Htot. unfold renderFloorPlan.
  destruct (floorPlanData st) as [data|] eqn:Hd; cbn [mbind option_bind];
    [|split; [discriminate|discriminate]].
  destruct (Response.floors data) as [[|fl floors]|] eqn:Hf; cbn zeta; cbn [shown read];
    try (split; discriminate).
  destruct (Z.leb_spec (Z.of_nat (length (fl :: floors))) (currentFloor st - 1)) as [Hge|Hlt];
    cbn [shown read].
  - exfalso. cbn [length] in *. lia.
  - split; [discriminate|]. intros i [= <-].
    assert (Hi : is_Some (index (fl :: floors) (currentFloor st - 1))).
    { unfold index. destruct (Z.ltb_spec (currentFloor st - 1) 0); [lia|].
      apply lookup_lt_is_Some. lia. }
    destruct Hi as [floorData Hi]. exists data, (fl :: floors), floorData. auto.
Qed.

Lemma reachable_renders_a_floor_witness :
  shown (renderFloorPlan (testRendering (initial true true true)).1)
  ≠ Some "Invalid floor number".
Proof.
  apply reachable_renders_a_floor. apply reach_test, reach_initial.
Defined.

(** *** Floor navigation *)

(** X7.  From a floor within the building, next floor and then previous
    floor comes back to the floor one was on when there is a next floor,
    and previous and then next does so when there is a previous floor. *)
Theorem navigation_round_trip (st : State) :
  (1 ≤ currentFloor st < totalFloors st →
   currentFloor (prevFloor (nextFloor st).1).1 = currentFloor st) ∧
  (1 < currentFloor st ≤ totalFloors st →
   currentFloor (nextFloor (prevFloor st).1).1 = currentFloor st).
Proof.
  split; intros [Hlo Hhi].
  - destruct (ClientFacts.nextFloor_fields st) as [Hc Ht].
    destruct (ClientFacts.prevFloor_fields (nextFloor st).1) as [Hc' _].
    rewrite Hc', Hc.
    destruct (Z.ltb_spec (currentFloor st) (totalFloors st)); [|lia].
    destruct (Z.ltb_spec 1 (currentFloor st + 1)); lia.
  - destruct (ClientFacts.prevFloor_fields st) as [Hc Ht].
    destruct (ClientFacts.nextFloor_fields (prevFloor st).1) as [Hc' _].
    rewrite Hc', Hc, Ht.
    destruct (Z.ltb_spec 1 (currentFloor st)); [|lia].
    destruct (Z.ltb_spec (currentFloor st - 1) (totalFloors st)); lia.
Qed.

Lemma navigation_round_trip_witness :
  currentFloor (prevFloor (nextFloor two_floors).1).1 = 1 ∧
  currentFloor (nextFloor (prevFloor (nextFloor two_floors).1).1).1 = 2.
Proof.
  destruct (navigation_round_trip two_floors) as [Hnp _].
  destruct (navigation_round_trip (nextFloor two_floors).1) as [_ Hpn].
  split.
  - apply Hnp. vm_compute. split; [discriminate|reflexivity].
  - rewrite Hpn; [reflexivity|]. vm_compute. split; [reflexivity|discriminate].
Defined.

(** X8.  A response with [success] set and an empty [floors] array is
    stored all the same: it leaves floor 1 of 0 floors, the error message
    for missing data in the container, and both navigation handlers
    without effect. *)
Theorem generateFloorPlan_no_floors (data : Response.t) (st : State) (d : Display) :
  truthy (Response.success data) = true → Response.floors data = Some [] →
  svgContainer st = Some d →
  let st' := (generateFloorPlan (Json data) st).1 in
  floorPlanData st' = Some data ∧ currentFloor st' = 1 ∧ totalFloors st' = 0 ∧
  svgContainer st'
  = Some (ErrorMessage "No floor plan data available. Please generate a floor plan first.") ∧
  prevFloor st' = (st', None) ∧ nextFloor st' = (st', None).
Proof.
  intros Hs Hf Hc st'.
  destruct (ClientFacts.generateFloorPlan_taken data st Hs) as (Hcur & Htot & Hdata).
  fold st' in Hcur, Htot, Hdata. rewrite Hf in Htot. cbn in Htot.
  assert (Hdisp : svgContainer st'
                  = Some (ErrorMessage
                            "No floor plan data available. Please generate a floor plan first.")).
  { unfold st'. cbn. rewrite Hs. unfold renderFloorPlan.
    cbn [floorPlanData mbind option_bind]. rewrite Hf. cbn [after].
    unfold showErrorMessage. cbn [svgContainer]. rewrite Hc. cbn [finish].
    destruct (Response.metrics data) as [metrics|]; cbn [fst]; [|reflexivity].
    unfold updateChart, updateAnalysis. cbn.
    destruct (metricsDiv st), (chart st); reflexivity. }
  refine (conj Hdata (conj Hcur (conj Htot (conj Hdisp _)))).
  unfold prevFloor, nextFloor. rewrite Hcur, Htot. split; reflexivity.
Qed.

Lemma generateFloorPlan_no_floors_witness :
  nextFloor (generateFloorPlan (Json no_floors) (initial true true true)).1
  = ((generateFloorPlan (Json no_floors) (initial true true true)).1, None).
Proof.
  apply (generateFloorPlan_no_floors no_floors (initial true true true) Welcome);
    reflexivity.
Defined.

(** *** Drawing a floor *)

Lemma renderRoom_Ok room : (∃ g, renderRoom room = Ok g) ↔ typed room.
Proof.
  unfold typed, renderRoom. destruct (Room.type room) as [type|]; split.
  - intros _. eauto.
  - intros _. eauto.
  - intros [g Hg]. discriminate.
  - intros [type Ht]. discriminate.
Qed.

Lemma forEach_Ok {A B} (f : A → Result B) (arr : list A) (bs : list B) :
  forEach f arr = Ok bs ↔ Forall2 (fun a b => f a = Ok b) arr bs.
Proof.
  revert bs. induction arr as [|a arr IH]; intros bs; cbn.
  - split; [intros [= <-]; constructor|intros H; inversion H; reflexivity].
  - destruct (f a) as [b|e] eqn:Hb; cbn.
    + destruct (forEach f arr) as [bs'|e] eqn:Hbs; cbn.
      * split.
        -- intros [= <-]. constructor; [exact Hb|apply IH; reflexivity].
        -- intros H. inversion H as [|? b0 ? bs0 Hb0 Hrest]; subst.
           rewrite Hb in Hb0. injection Hb0 as <-.
           apply IH in Hrest. injection Hrest as <-. reflexivity.
      * split; [discriminate|].
        intros H. inversion H as [|? b0 ? bs0 Hb0 Hrest]; subst.
        apply IH in Hrest. discriminate.
    + split; [discriminate|].
      intros H. inversion H as [|? b0 ? bs0 Hb0 Hrest]; subst. congruence.
Qed.

Lemma forEach_total {A B} (f : A → Result B) (arr : list A) :
  (∃ bs, forEach f arr = Ok bs) ↔ Forall (fun a => ∃ b, f a = Ok b) arr.
Proof.
  induction arr as [|a arr IH]; cbn.
  - split; [constructor|eauto].
  - rewrite Forall_cons, <- IH. destruct (f a) as [b|e]; cbn.
    + destruct (forEach f arr) as [bs|e]; cbn.
      * split; eauto.
      * split; [intros [bs H]; discriminate|intros [_ [bs H]]; discriminate].
    + split; [intros [bs H]; discriminate|intros [[b H] _]; discriminate].
Qed.

Lemma forEach_renderRoom rooms :
  (∃ groups, forEach renderRoom rooms = Ok groups) ↔ Forall typed rooms.
Proof.
  rewrite forEach_total.
  split; intros H; eapply Forall_impl; try exact H; intros room; apply renderRoom_Ok.
Qed.

Lemma drawFloor_Ok_iff (floorData : Floor.t) :
  (∃ svg, drawFloor floorData = Ok svg) ↔
  Forall typed (default [] (Floor.rooms floorData)).
Proof.
  unfold drawFloor.
  destruct (Floor.rooms floorData) as [[|room more]|]; cbn [default].
  - split; [constructor|]. intros _. cbn. eauto.
  - change (id (room :: more)) with (room :: more).
    rewrite <- (forEach_renderRoom (room :: more)).
    destruct (forEach renderRoom (room :: more)) as [groups|e].
    + split; intros _; eexists; reflexivity.
    + split; intros [x H]; cbn in H; discriminate.
  - split; [constructor|]. intros _. cbn. eauto.
Qed.

(** X10.  What a drawn floor consists of: the two grid elements, then
    one group per room in the order of the rooms (a single text when the
    floor has no rooms), one line per wall, one line per window, and a
    rectangle and a path per door. *)
Theorem drawFloor_children (floorData : Floor.t) (svg : Node) :
  drawFloor floorData = Ok svg →
  ∃ groups,
    kids_of svg
    = addGrid (nmul (toNumber (Floor.width floorData)) (ofZ 50))
              (nmul (toNumber (Floor.length floorData)) (ofZ 50))
      ++ groups
      ++ map renderWall (default [] (Floor.walls floorData))
      ++ map renderWindow (default [] (Floor.windows floorData))
      ++ concat (map renderDoor (default [] (Floor.doors floorData))) ∧
    match default [] (Floor.rooms floorData) with
    | [] => groups = [ renderNoRoomsMessage
                         (nmul (toNumber (Floor.width floorData)) (ofZ 50))
                         (nmul (toNumber (Floor.length floorData)) (ofZ 50)) ]
    | rooms => Forall2 (fun room g => renderRoom room = Ok g) rooms groups
    end ∧
    length (kids_of svg)
    = (2 + Nat.max 1 (length (default [] (Floor.rooms floorData)))
       + length (default [] (Floor.walls floorData))
       + length (default [] (Floor.windows floorData))
       + 2 * length (default [] (Floor.doors floorData)))%nat.
Proof.
  unfold drawFloor.
  set (w := nmul (toNumber (Floor.width floorData)) (ofZ 50)).
  set (h := nmul (toNumber (Floor.length floorData)) (ofZ 50)).
  assert (Hdoors : ∀ doors : list Door.t,
            length (concat (map renderDoor doors)) = (2 * length doors)%nat).
  { induction doors as [|door doors IH]; [reflexivity|].
    cbn [map concat]. rewrite length_app, IH. cbn. lia. }
  match goal with |- context [mbind _ ?r] => destruct r as [groups|e] eqn:Hg end;
    [|discriminate].
  intros [= <-]. exists groups. split; [reflexivity|].
  cbn [kids_of length]. rewrite !length_app, !length_map, Hdoors.
  destruct (Floor.rooms floorData) as [[|room more]|]; cbn [default].
  - injection Hg as <-. split; [reflexivity|]. cbn. lia.
  - apply forEach_Ok in Hg. split; [exact Hg|].
    apply Forall2_length in Hg. rewrite <- Hg. cbn. lia.
  - injection Hg as <-. split; [reflexivity|]. cbn. lia.
Qed.

Lemma drawFloor_children_witness :
  ∃ svg, drawFloor test_floor = Ok svg ∧ length (kids_of svg) = 20%nat.
Proof.
  destruct (drawFloor test_floor) as [svg|e] eqn:Hd; [|vm_compute in Hd; discriminate].
  exists svg. split; [reflexivity|].
  destruct (drawFloor_children test_floor svg Hd) as (groups & _ & _ & Hlen).
  rewrite Hlen. reflexivity.
Defined.

(** X11.  [generateFloorPlan] hands the building's metrics to
    [updateAnalysis], which reads the fields of a floor's metrics: for a
    metrics object with no field beyond total_area, total_rooms, floors
    and average_efficiency the panel shows the total area and 0 for the
    room count, the efficiency and the circulation area. *)
Theorem updateAnalysis_building_metrics (metrics : gmap string jsval) (st : State)
    (old : list jsval) :
  metricsDiv st = Some old → dom metrics ⊆ contract_fields →
  metricsDiv (updateAnalysis metrics st)
  = Some [ jor (prop metrics "total_area") (JNum (ofZ 0));
           JNum (ofZ 0); JNum (ofZ 0); JNum (ofZ 0) ].
Proof.
  intros Hdiv Hdom. unfold updateAnalysis. rewrite Hdiv. cbn [metricsDiv].
  assert (Hout : ∀ key, key ∉ contract_fields →
                        jor (prop metrics key) (JNum (ofZ 0)) = JNum (ofZ 0)).
  { intros key Hkey. apply ClientFacts.jor_absent_or_zero. left.
    apply ClientFacts.outside_contract; assumption. }
  rewrite (Hout "room_count"), (Hout "efficiency"), (Hout "circulation_area");
    [reflexivity|..];
    unfold contract_fields; rewrite !not_elem_of_union, !not_elem_of_singleton; done.
Qed.

Lemma updateAnalysis_building_metrics_witness :
  metricsDiv (updateAnalysis testMetrics (initial true true true))
  = Some [ JNum (ofZ 53); JNum (ofZ 0); JNum (ofZ 0); JNum (ofZ 0) ].
Proof.
  rewrite (updateAnalysis_building_metrics testMetrics (initial true true true) []).
  - vm_compute. reflexivity.
  - reflexivity.
  - apply (bool_decide_unpack _). vm_compute. exact I.
Defined.

(** *** A room's rectangle *)

Lemma scaled_truthy (o : option num) (d k : num) :
  truthy d = true → truthy k = true → truthy (nmul (jor_default o d) k) = true.
Proof.
  intros Hd Hk.
  assert (Hj : truthy (jor_default o d) = true).
  { destruct o as [a|]; [apply jor_usable, Hd|exact Hd]. }
  destruct (jor_default o d) as [|q], k as [|c]; try discriminate. cbn in *.
  apply negb_true_iff, not_true_iff_false in Hj, Hk.
  apply negb_true_iff, not_true_iff_false. intros Hz.
  apply Qeq_bool_iff, Qmult_integral in Hz as [Hz|Hz]; [apply Hj|apply Hk];
    apply Qeq_bool_iff, Hz.
Qed.

(** X12.  Whatever a room holds, the rectangle [renderRoom] draws for it
    has a position and a size that are numbers other than zero: never
    NaN, never at coordinate 0, never empty. *)
Theorem renderRoom_rectangle (room : Room.t) (g : Node) :
  renderRoom room = Ok g →
  ∃ rect text x y width height,
    g = El "g" [] [ rect; text ] ∧
    getAttribute "x" rect = Some (ANum x) ∧ truthy x = true ∧
    getAttribute "y" rect = Some (ANum y) ∧ truthy y = true ∧
    getAttribute "width" rect = Some (ANum width) ∧ truthy width = true ∧
    getAttribute "height" rect = Some (ANum height) ∧ truthy height = true.
Proof.
  unfold renderRoom. destruct (Room.type room) as [type|]; [|discriminate].
  intros [= <-]. eexists _, _, _, _, _, _. split; [reflexivity|].
  repeat split; try reflexivity; apply scaled_truthy; reflexivity.
Qed.

Lemma renderRoom_rectangle_witness :
  ∃ rect text x, renderRoom corner_room = Ok (El "g" [] [ rect; text ]) ∧
                 getAttribute "x" rect = Some (ANum x) ∧ truthy x = true.
Proof.
  destruct (renderRoom corner_room) as [g|e] eqn:Hg; [|vm_compute in Hg; discriminate].
  destruct (renderRoom_rectangle corner_room g Hg)
    as (rect & text & x & y & w & h & -> & Hx & Htx & _).
  exists rect, text, x. auto.
Defined.

(** *** The 3D view *)

Lemma cubes_are_meshes floors :
  Forall (fun child => is_mesh child = true)
         (concat (imap (fun floorIndex floor =>
                          map (cube floorIndex floor) (default [] (Floor.rooms floor)))
                       floors)).
Proof.
  apply Forall_concat, Forall_forall. intros cubes Hin.
  apply list_elem_of_lookup in Hin as [i Hi]. rewrite list_lookup_imap in Hi.
  destruct (floors !! i) as [floor|]; [|discriminate]. injection Hi as <-.
  apply Forall_fmap, Forall_forall. intros room _. reflexivity.
Qed.

Lemma cubes_count floors :
  length (concat (imap (fun floorIndex floor =>
                          map (cube floorIndex floor) (default [] (Floor.rooms floor)))
                       floors))
  = sum_list (map (fun floor => length (default [] (Floor.rooms floor))) floors).
Proof.
  rewrite length_concat. f_equal. apply list_eq. intros i.
  rewrite !list_lookup_fmap, list_lookup_imap.
  destruct (floors !! i) as [floor|]; [|reflexivity]. cbn. rewrite length_map. reflexivity.
Qed.

Lemma filter_none {A} (P : A → Prop) `{∀ x, Decision (P x)} (l : list A) :
  Forall (fun a => ¬ P a) l → filter P l = [].
Proof.
  induction 1 as [|a l Ha _ IH]; [reflexivity|].
  rewrite filter_cons_False by exact Ha. exact IH.
Qed.

Lemma filter_all {A} (P : A → Prop) `{∀ x, Decision (P x)} (l : list A) :
  Forall P l → filter P l = l.
Proof.
  induction 1 as [|a l Ha _ IH]; [reflexivity|].
  rewrite filter_cons_True by exact Ha. f_equal. exact IH.
Qed.

Lemma filter_filter_same {A} (P : A → Prop) `{∀ x, Decision (P x)} (l : list A) :
  filter P (filter P l) = filter P l.
Proof.
  apply filter_all, Forall_forall. intros a Ha. apply list_elem_of_filter in Ha. tauto.
Qed.

Lemma helpers_among_cubes floors :
  filter (fun child => is_mesh child = false)
         (concat (imap (fun floorIndex floor =>
                          map (cube floorIndex floor) (default [] (Floor.rooms floor)))
                       floors)) = [].
Proof.
  apply filter_none. eapply Forall_impl; [apply cubes_are_meshes|].
  cbn. intros child ->. discriminate.
Qed.

(** X13.  [update3DView] keeps what is in the scene apart from meshes
    (the lights, the grid helper), in order, and replaces the meshes:
    updating twice with the same floors gives the scene of updating once,
    so meshes do not pile up; without a scene it does nothing. *)
Theorem update3DView_replaces (floors : list Floor.t) (children : list Object3D) :
  (∃ after,
     update3DView floors (Some children) = Some after ∧
     filter (fun child => is_mesh child = false) after
     = filter (fun child => is_mesh child = false) children) ∧
  update3DView floors (update3DView floors (Some children))
  = update3DView floors (Some children) ∧
  update3DView floors None = None.
Proof.
  unfold update3DView. refine (conj _ (conj _ eq_refl)).
  - eexists. split; [reflexivity|].
    rewrite filter_app, filter_filter_same, helpers_among_cubes. apply app_nil_r.
  - f_equal. f_equal.
    rewrite filter_app, filter_filter_same, helpers_among_cubes. apply app_nil_r.
Qed.

(** X14.  After [update3DView] the scene holds exactly one mesh per room
    of the floors, whatever meshes it held before. *)
Theorem update3DView_meshes (floors : list Floor.t) (children after : list Object3D) :
  update3DView floors (Some children) = Some after →
  length (filter (fun child => is_mesh child = true) after)
  = sum_list (map (fun floor => length (default [] (Floor.rooms floor))) floors).
Proof.
  unfold update3DView. intros [= <-]. rewrite filter_app.
  rewrite (filter_none (fun child => is_mesh child = true)
             (filter (fun child => is_mesh child = false) children)).
  - cbn [app]. rewrite filter_all by apply cubes_are_meshes. apply cubes_count.
  - apply Forall_forall. intros child Hin. apply list_elem_of_filter in Hin as [Hc _].
    congruence.
Qed.

Lemma update3DView_meshes_witness :
  ∃ after, update3DView [ test_floor ] (Some initial_scene) = Some after ∧
           length (filter (fun child => is_mesh child = true) after) = 4%nat.
Proof.
  eexists. split; [reflexivity|].
  rewrite (update3DView_meshes [ test_floor ] initial_scene _ eq_refl). reflexivity.
Defined.

(** *** Generation that does not go through *)

(** X15.  When the request fails, the server answers with an error
    status, the body is no JSON, or the response's [success] is not
    truthy, [generateFloorPlan] leaves the whole state as it was and
    reports an error. *)
Theorem generateFloorPlan_rejected (outcome : FetchOutcome) (st : State) :
  (∀ data, outcome = Json data → truthy (Response.success data) = false) →
  (generateFloorPlan outcome st).1 = st ∧ is_Some (generateFloorPlan outcome st).2.
Proof.
  intros H. destruct outcome as [e|status|e|data]; cbn; eauto.
  rewrite (H data eq_refl). cbn. eauto.
Qed.

Lemma generateFloorPlan_rejected_witness :
  generateFloorPlan (NotOk 500) (testRendering (initial true true true)).1
  = ((testRendering (initial true true true)).1, Some (HttpStatus 500)).
Proof.
  destruct (generateFloorPlan_rejected (NotOk 500) (testRendering (initial true true true)).1)
    as [Hst _]; [discriminate|].
  reflexivity.
Defined.

Lemma renderRoom_throws room e : renderRoom room = Threw e → e = typeError.
Proof.
  unfold renderRoom. destruct (Room.type room); [discriminate|]. intros [= <-]. reflexivity.
Qed.

Lemma forEach_renderRoom_throws rooms e :
  forEach renderRoom rooms = Threw e → e = typeError.
Proof.
  induction rooms as [|room rooms IH]; cbn [forEach]; [discriminate|].
  destruct (renderRoom room) as [g|e0] eqn:Hroom; cbn.
  - destruct (forEach renderRoom rooms) as [groups|e']; cbn; [discriminate|].
    intros [= <-]. apply IH. reflexivity.
  - intros [= <-]. apply (renderRoom_throws room e0 Hroom).
Qed.

Lemma drawFloor_throws floorData :
  ¬ Forall typed (default [] (Floor.rooms floorData)) →
  drawFloor floorData = Threw typeError.
Proof.
  intros Hn. destruct (drawFloor floorData) as [svg|e] eqn:Hd.
  - exfalso. apply Hn, drawFloor_Ok_iff. eauto.
  - f_equal. unfold drawFloor in Hd.
    match type of Hd with context [mbind _ ?r] =>
      destruct r as [groups|e'] eqn:Hg end; [discriminate|].
    cbn in Hd. injection Hd as <-.
    destruct (Floor.rooms floorData) as [[|room more]|]; try discriminate.
    apply (forEach_renderRoom_throws _ _ Hg).
Qed.

(** X9.  A floor is drawn exactly when every one of its rooms has a
    type; one room without a type makes [drawFloor] throw a TypeError, so
    that nothing of the floor is drawn. *)
Theorem drawFloor_typed (floorData : Floor.t) :
  ((∃ svg, drawFloor floorData = Ok svg) ↔
   Forall typed (default [] (Floor.rooms floorData))) ∧
  (¬ Forall typed (default [] (Floor.rooms floorData)) →
   drawFloor floorData = Threw typeError).
Proof. split; [apply drawFloor_Ok_iff|apply drawFloor_throws]. Qed.

Lemma drawFloor_typed_witness :
  drawFloor untyped_floor = Threw typeError ∧ ∃ svg, drawFloor test_floor = Ok svg.
Proof.
  split.
  - apply (drawFloor_typed untyped_floor).
    intros H. cbn in H. apply Forall_cons in H as [[type Ht] _]. discriminate.
  - apply (drawFloor_typed test_floor). cbn.
    repeat constructor; eexists; reflexivity.
Defined.

(** X16.  A response with [success] set whose first floor has a room
    without a type is stored and the floor counters are set, but the
    drawing throws: the container is left empty, the error is reported,
    and the metrics panel and the chart keep what they showed. *)
Theorem generateFloorPlan_untyped_room (data : Response.t) (st : State)
    (floorData : Floor.t) (more : list Floor.t) (d : Display) :
  truthy (Response.success data) = true →
  Response.floors data = Some (floorData :: more) →
  ¬ Forall typed (default [] (Floor.rooms floorData)) →
  svgContainer st = Some d →
  generateFloorPlan (Json data) st
  = ({| currentFloor := 1;
        totalFloors := Z.of_nat (length (floorData :: more));
        floorPlanData := Some data;
        chart := chart st;
        svgContainer := Some Cleared;
        metricsDiv := metricsDiv st |},
     Some typeError).
Proof.
  intros Hs Hf Hn Hc. cbn [generateFloorPlan]. rewrite Hs, Hf.
  unfold renderFloorPlan. cbn [floorPlanData mbind option_bind currentFloor]. rewrite Hf.
  destruct (Z.leb_spec (Z.of_nat (length (floorData :: more))) (1 - 1)) as [Hge|Hlt];
    [cbn [length] in Hge; lia|].
  cbn [after svgContainer]. rewrite Hc.
  change (index (floorData :: more) (1 - 1)) with (Some floorData). cbn iota.
  rewrite (drawFloor_throws floorData Hn). reflexivity.
Qed.

Lemma generateFloorPlan_untyped_room_witness :
  (generateFloorPlan (Json untyped_response) (initial true true true)).2 = Some typeError ∧
  svgContainer (generateFloorPlan (Json untyped_response) (initial true true true)).1
  = Some Cleared.
Proof.
  rewrite (generateFloorPlan_untyped_room untyped_response (initial true true true)
             untyped_floor [] Welcome).
  - split; reflexivity.
  - reflexivity.
  - reflexivity.
  - intros H. cbn in H. apply Forall_cons in H as [[type Ht] _]. discriminate.
  - reflexivity.
Defined.

End ClientBehaviour.
